(** * The agent-service client ([src/client/client.py])

    A shallow embedding of [AgentClient]: the stream line decoder
    [_parse_stream_line], the two streaming loops [stream] and [astream],
    and the agent selection operations [retrieve_info] and [update_agent].

    Python values are modelled as follows.
    - A [str] is the list of its code points ([pystr]).
    - A value produced by [json.loads] (an [Any] in the source) is a
      [JValue]; a [dict] keeps its insertion order.
    - A raised exception is a value [exn] made of its class and of the text
      [str(e)]; a computation that may raise lives in [result].
    - A generator is represented by what one complete iteration produces:
      the list of yielded values and how the iteration ended ([run]).
    - Calls to [logger] have no effect on any returned value and are left
      out. *)

From Stdlib Require Import List NArith ZArith Bool Lia Ascii String DecimalString.
Import ListNotations.

#[local] Set Warnings "-register-all,-abstract-large-number".

Local Open Scope string_scope.
Local Open Scope list_scope.

(** ** Python strings *)

Module Py.

Definition pystr := list N.

(** [py "text"] is the Python string with the same characters. *)
Definition py (s : string) : pystr := map N_of_ascii (list_ascii_of_string s).

Fixpoint str_eqb (a b : pystr) : bool :=
  match a, b with
  | [], [] => true
  | x :: a', y :: b' => N.eqb x y && str_eqb a' b'
  | _, _ => false
  end.

(** [s.startswith(p)] *)
Fixpoint startswith (s p : pystr) : bool :=
  match p, s with
  | [], _ => true
  | x :: p', y :: s' => N.eqb x y && startswith s' p'
  | _ :: _, [] => false
  end.

(** [sub in s] *)
Fixpoint contains (s sub : pystr) : bool :=
  startswith s sub ||
  match s with
  | [] => false
  | _ :: s' => contains s' sub
  end.

(** [sep.join(l)] *)
Fixpoint join (sep : pystr) (l : list pystr) : pystr :=
  match l with
  | [] => []
  | [x] => x
  | x :: l' => x ++ sep ++ join sep l'
  end.

(** [x in l] for a list of strings *)
Definition str_in (x : pystr) (l : list pystr) : bool := existsb (str_eqb x) l.

(** [c.isspace()]: the code points that [str.strip()] removes. *)
Definition isspace (c : N) : bool :=
  (((9 <=? c) && (c <=? 13)) || ((28 <=? c) && (c <=? 32)) ||
   (c =? 133) || (c =? 160) || (c =? 5760) ||
   ((8192 <=? c) && (c <=? 8202)) || (c =? 8232) || (c =? 8233) ||
   (c =? 8239) || (c =? 8287) || (c =? 12288))%N.

Fixpoint lstrip (s : pystr) : pystr :=
  match s with
  | c :: s' => if isspace c then lstrip s' else s
  | [] => []
  end.

Definition rstrip (s : pystr) : pystr := rev (lstrip (rev s)).

(** [s.strip()] *)
Definition strip (s : pystr) : pystr := rstrip (lstrip s).

(** Truth value of a string: [if s] holds for the non-empty ones. *)
Definition str_truthy (s : pystr) : bool :=
  match s with [] => false | _ :: _ => true end.

(** [str(n)] for a natural number. *)
Definition str_of_nat (n : nat) : pystr := py (NilZero.string_of_uint (Nat.to_uint n)).

(** ** Values

    The values [json.loads] can return.  A float is kept as the decimal
    number it was read from, [(-1)^neg * m * 10^e], which [float()] rounds
    to the nearest double; [NaN] and the infinities are the three constants
    the decoder accepts.  Two texts that [float()] rounds to the same
    double, or to an infinity, are kept apart. *)

Inductive pyfloat : Type :=
| Dec (neg : bool) (m : N) (e : Z)
| NaN
| Inf (neg : bool).

Inductive JValue : Type :=
| JNull
| JBool (b : bool)
| JInt (z : Z)
| JFloat (f : pyfloat)
| JString (s : pystr)
| JArray (l : list JValue)
| JObject (d : list (pystr * JValue)).

Definition dict := list (pystr * JValue).

(** [d.get(k)], as an option *)
Fixpoint dict_get (d : dict) (k : pystr) : option JValue :=
  match d with
  | [] => None
  | (k', v) :: d' => if str_eqb k' k then Some v else dict_get d' k
  end.

(** [d[k] = v]: an existing key keeps its place and takes the new value. *)
Fixpoint dict_set (d : dict) (k : pystr) (v : JValue) : dict :=
  match d with
  | [] => [(k, v)]
  | (k', v') :: d' => if str_eqb k' k then (k', v) :: d' else (k', v') :: dict_set d' k v
  end.

(** [type(v).__name__] *)
Definition type_name (v : JValue) : pystr :=
  match v with
  | JNull => py "NoneType"
  | JBool _ => py "bool"
  | JInt _ => py "int"
  | JFloat _ => py "float"
  | JString _ => py "str"
  | JArray _ => py "list"
  | JObject _ => py "dict"
  end.

(** [isinstance(v, dict)] *)
Definition is_dict (v : JValue) : bool :=
  match v with
  | JObject _ => true
  | _ => false
  end.

(** [v == s] for a string [s]: only an equal string is equal to it. *)
Definition eq_str (v : JValue) (s : pystr) : bool :=
  match v with
  | JString t => str_eqb t s
  | _ => false
  end.

(** [f != 0.0]: a decimal rounds to zero exactly when it is at most
    [2^-1075], half of the smallest positive double. *)
Definition float_nonzero (f : pyfloat) : bool :=
  match f with
  | Dec _ m e =>
      if (0 <=? e)%Z then negb (m =? 0)%N
      else (10 ^ (- e) <? Z.of_N m * 2 ^ 1075)%Z
  | NaN | Inf _ => true
  end.

(** Truth value of a value ([if v]). *)
Definition truthy (v : JValue) : bool :=
  match v with
  | JNull => false
  | JBool b => b
  | JInt z => negb (Z.eqb z 0)
  | JFloat f => float_nonzero f
  | JString s => str_truthy s
  | JArray l => match l with [] => false | _ :: _ => true end
  | JObject d => match d with [] => false | _ :: _ => true end
  end.

(** ** Exceptions *)

(** The exception classes the client meets.  All of them derive from
    [Exception]; [ConnectError] and [HTTPStatusError] derive from
    [httpx.HTTPError], which also stands for its other subclasses;
    [JSONDecodeError] derives from [ValueError].  What does not derive
    from [Exception] -- a cancellation, [GeneratorExit],
    [KeyboardInterrupt] -- is outside the model. *)
Inductive pyclass : Type :=
| Exception
| ValueError
| JSONDecodeError
| AttributeError
| KeyError
| TypeError
| RecursionError
| HTTPError
| ConnectError
| HTTPStatusError
| ValidationError
| AgentClientError.

Record exn : Type := Exn { exn_class : pyclass; exn_str : pystr }.

(** [issubclass(c, base)] *)
Definition issubclass (c base : pyclass) : bool :=
  match base, c with
  | Exception, _ => true
  | ValueError, (ValueError | JSONDecodeError | ValidationError) => true
  | JSONDecodeError, JSONDecodeError => true
  | AttributeError, AttributeError => true
  | KeyError, KeyError => true
  | TypeError, TypeError => true
  | RecursionError, RecursionError => true
  | HTTPError, (HTTPError | ConnectError | HTTPStatusError) => true
  | ConnectError, ConnectError => true
  | HTTPStatusError, HTTPStatusError => true
  | ValidationError, ValidationError => true
  | AgentClientError, AgentClientError => true
  | _, _ => false
  end.

Definition isinstance (e : exn) (base : pyclass) : bool :=
  issubclass (exn_class e) base.

(** A computation that returns a value or raises. *)
Inductive result (A : Type) : Type :=
| Return (a : A)
| Raise (e : exn).
Arguments Return {A} a.
Arguments Raise {A} e.

Definition bind {A B} (m : result A) (k : A -> result B) : result B :=
  match m with
  | Return a => k a
  | Raise e => Raise e
  end.

(** [try: m  except c1 as e: h1 e  except c2 as e: h2 e ...]: the first
    clause whose class the exception is an instance of handles it; what a
    handler raises is not handled by the clauses that follow it. *)
Fixpoint handle {A} (e : exn) (clauses : list (pyclass * (exn -> result A))) : result A :=
  match clauses with
  | [] => Raise e
  | (cls, h) :: clauses' => if isinstance e cls then h e else handle e clauses'
  end.

Definition try_except {A} (m : result A) (clauses : list (pyclass * (exn -> result A)))
  : result A :=
  match m with
  | Return a => Return a
  | Raise e => handle e clauses
  end.

(** [v.get(k, default)]: only a dictionary has the method. *)
Definition get (v : JValue) (k : pystr) (default : JValue) : result JValue :=
  match v with
  | JObject d => Return (match dict_get d k with Some x => x | None => default end)
  | _ => Raise (Exn AttributeError
                  (py "'" ++ type_name v ++ py "' object has no attribute 'get'"))
  end.

(** [v[k]] for a key [k] written with plain letters, whose [repr] is the
    key between single quotes. *)
Definition getitem (v : JValue) (k : pystr) : result JValue :=
  match v with
  | JObject d =>
      match dict_get d k with
      | Some x => Return x
      | None => Raise (Exn KeyError (py "'" ++ k ++ py "'"))
      end
  | JArray _ => Raise (Exn TypeError (py "list indices must be integers or slices, not str"))
  | JString _ => Raise (Exn TypeError (py "string indices must be integers, not 'str'"))
  | _ => Raise (Exn TypeError (py "'" ++ type_name v ++ py "' object is not subscriptable"))
  end.

End Py.
Import Py.

Notation "x <- m ;; k" := (bind m (fun x => k))
  (at level 61, m at next level, right associativity).

(** ** The JSON decoder

    [json.loads] belongs to the Python standard library.  The client is
    verified for an arbitrary decoder (a variable of section [Client]); the
    model below, which follows the scanner of CPython 3.11 ([scan_once],
    [scanstring], the object and array loops and [JSONDecoder.decode]),
    makes the results on concrete lines computable. *)

Module Json.

Local Open Scope N_scope.

(** The position reached in the document and the text that remains. *)
Record cursor : Type := Cur { pos : nat; rest : pystr }.

Inductive scan (A : Type) : Type :=
| Ok (a : A) (c : cursor)
| Stop (idx : nat)
| Fail (msg : pystr) (idx : nat)
| Err (e : exn).
Arguments Ok {A} a c.
Arguments Stop {A} idx.
Arguments Fail {A} msg idx.
Arguments Err {A} e.

Definition is_ws (c : N) : bool := (c =? 32) || (c =? 9) || (c =? 10) || (c =? 13).

Definition is_digit (c : N) : bool := (48 <=? c) && (c <=? 57).

Fixpoint skip_ws (p : nat) (s : pystr) : cursor :=
  match s with
  | c :: s' => if is_ws c then skip_ws (S p) s' else Cur p s
  | [] => Cur p []
  end.

Definition hex_digit (c : N) : option N :=
  if (48 <=? c) && (c <=? 57) then Some (c - 48)
  else if (97 <=? c) && (c <=? 102) then Some (c - 87)
  else if (65 <=? c) && (c <=? 70) then Some (c - 55)
  else None.

Definition hex4 (a b c d : N) : option N :=
  match hex_digit a, hex_digit b, hex_digit c, hex_digit d with
  | Some x, Some y, Some z, Some w => Some (((x * 16 + y) * 16 + z) * 16 + w)
  | _, _, _, _ => None
  end.

Definition is_high_surrogate (u : N) : bool := (55296 <=? u) && (u <=? 56319).
Definition is_low_surrogate (u : N) : bool := (56320 <=? u) && (u <=? 57343).
Definition join_surrogates (u u2 : N) : N :=
  65536 + ((u - 55296) * 1024 + (u2 - 56320)).

(** The character a one-letter escape stands for. *)
Definition unescape (c : N) : option N :=
  if c =? 34 then Some 34
  else if c =? 92 then Some 92
  else if c =? 47 then Some 47
  else if c =? 98 then Some 8
  else if c =? 102 then Some 12
  else if c =? 110 then Some 10
  else if c =? 114 then Some 13
  else if c =? 116 then Some 9
  else None.

(** [scanstring(s, end)] in strict mode: [p] is the index of the character
    that follows the opening quote, [begin] the index of that quote, [acc]
    the characters read so far, last first. *)
Fixpoint scanstring_from (begin p : nat) (s acc : pystr) {struct s} : scan pystr :=
  match s with
  | [] => Fail (py "Unterminated string starting at") begin
  | c :: s1 =>
      if c =? 34 then Ok (rev acc) (Cur (S p) s1)
      else if c =? 92 then
        match s1 with
        | [] => Fail (py "Unterminated string starting at") begin
        | e :: s2 =>
            if e =? 117 then
              match s2 with
              | h1 :: h2 :: h3 :: h4 :: ((_ :: _) as s3) =>
                  match hex4 h1 h2 h3 h4 with
                  | None => Fail (py "Invalid \uXXXX escape") (p + 1)
                  | Some u =>
                      match s3 with
                      | b :: e2 :: g1 :: g2 :: g3 :: g4 :: ((_ :: _) as s4) =>
                          if is_high_surrogate u && (b =? 92) && (e2 =? 117) then
                            match hex4 g1 g2 g3 g4 with
                            | None => Fail (py "Invalid \uXXXX escape") (p + 7)
                            | Some u2 =>
                                if is_low_surrogate u2
                                then scanstring_from begin (p + 12) s4
                                       (join_surrogates u u2 :: acc)
                                else scanstring_from begin (p + 6) s3 (u :: acc)
                            end
                          else scanstring_from begin (p + 6) s3 (u :: acc)
                      | _ => scanstring_from begin (p + 6) s3 (u :: acc)
                      end
                  end
              | _ => Fail (py "Invalid \uXXXX escape") (p + 1)
              end
            else
              match unescape e with
              | Some ch => scanstring_from begin (p + 2) s2 (ch :: acc)
              | None => Fail (py "Invalid \escape") p
              end
        end
      else if c <=? 31 then Fail (py "Invalid control character at") p
      else scanstring_from begin (S p) s1 (c :: acc)
  end.

Definition scanstring (p : nat) (s : pystr) : scan pystr :=
  scanstring_from (p - 1) p s [].

Fixpoint span_digits (s : pystr) : pystr * pystr :=
  match s with
  | c :: s' =>
      if is_digit c then let (d, r) := span_digits s' in (c :: d, r) else ([], s)
  | [] => ([], [])
  end.

Definition digits_value (ds : pystr) : N :=
  fold_left (fun a c => a * 10 + (c - 48)) ds 0.

(** The interpreter's default limit on the List.length of a decimal integer. *)
Definition int_max_str_digits : nat := 4300.

(** [int(text)] for an optional minus sign followed by the digits [ds]. *)
Definition parse_int (neg : bool) (ds : pystr) : result JValue :=
  if (int_max_str_digits <? List.length ds)%nat then
    Raise (Exn ValueError
      (py "Exceeds the limit (4300 digits) for integer string conversion: value has "
       ++ str_of_nat (List.length ds)
       ++ py " digits; use sys.set_int_max_str_digits() to increase the limit"))
  else
    Return (JInt (if neg then (- Z.of_N (digits_value ds))%Z else Z.of_N (digits_value ds))).

(** The parts of a number, each with the text that follows it: the
    optional minus sign; the integer part ([0], or a non-zero digit and more
    digits); the digits of the fraction, if a digit follows the point; the
    sign and the digits of the exponent, if a digit follows [e] and its
    optional sign. *)
Definition take_sign (s : pystr) : bool * pystr :=
  match s with
  | c :: s' => if c =? 45 then (true, s') else (false, s)
  | [] => (false, [])
  end.

Definition take_integer (s : pystr) : option (pystr * pystr) :=
  match s with
  | c :: s' =>
      if c =? 48 then Some ([c], s')
      else if is_digit c then let (d, r) := span_digits s' in Some (c :: d, r)
      else None
  | [] => None
  end.

Definition take_fraction (s : pystr) : pystr * pystr :=
  match s with
  | dot :: ((d :: _) as r) =>
      if (dot =? 46) && is_digit d then span_digits r else ([], s)
  | _ => ([], s)
  end.

Definition take_exponent (s : pystr) : bool * pystr * pystr :=
  match s with
  | e :: r =>
      if (e =? 101) || (e =? 69) then
        let (sneg, r') :=
          match r with
          | sg :: ((_ :: _) as r'') =>
              if sg =? 45 then (true, r'')
              else if sg =? 43 then (false, r'')
              else (false, r)
          | _ => (false, r)
          end in
        match span_digits r' with
        | ([], _) => (false, [], s)
        | (ds, r'') => (sneg, ds, r'')
        end
      else (false, [], s)
  | [] => (false, [], s)
  end.

(** The number match of the scanner. *)
Definition match_number (p : nat) (s : pystr) : scan JValue :=
  let (neg, s1) := take_sign s in
  match take_integer s1 with
  | None => Stop p
  | Some (ids, r1) =>
      let (fds, r2) := take_fraction r1 in
      let '(eneg, eds, r3) := take_exponent r2 in
      let p' := (p + (List.length s - List.length r3))%nat in
      match fds, eds with
      | [], [] =>
          match parse_int neg ids with
          | Return v => Ok v (Cur p' r3)
          | Raise e => Err e
          end
      | _, _ =>
          let ex := Z.of_N (digits_value eds) in
          Ok (JFloat (Dec neg (digits_value (ids ++ fds))
                        ((if eneg then - ex else ex) - Z.of_nat (List.length fds))%Z))
             (Cur p' r3)
      end
  end.

Definition recursion_error : exn :=
  Exn RecursionError (py "maximum recursion depth exceeded").

(** A literal [word] at the cursor. *)
Definition literal (word : pystr) (v : JValue) (c : cursor) : option (scan JValue) :=
  if startswith (rest c) word
  then Some (Ok v (Cur (pos c + List.length word) (skipn (List.length word) (rest c))))
  else None.

(** [scan_once], with the loops of the array and of the object parser.
    [fuel] bounds the number of nested calls; [loads] gives a budget that no
    document uses up (see [loads_within_budget]), so the recursion limit of
    the interpreter is not part of the model. *)
Fixpoint scan_once (fuel : nat) (c : cursor) {struct fuel} : scan JValue :=
  match fuel with
  | O => Err recursion_error
  | S fuel' =>
      match rest c with
      | [] => Stop (pos c)
      | ch :: s' =>
          if ch =? 34 then
            match scanstring (S (pos c)) s' with
            | Ok str c' => Ok (JString str) c'
            | Stop i => Stop i
            | Fail m i => Fail m i
            | Err e => Err e
            end
          else if ch =? 123 then
            let c1 := skip_ws (S (pos c)) s' in
            match rest c1 with
            | x :: s1 =>
                if x =? 125 then Ok (JObject []) (Cur (S (pos c1)) s1)
                else object_loop fuel' c1 []
            | [] => object_loop fuel' c1 []
            end
          else if ch =? 91 then
            let c1 := skip_ws (S (pos c)) s' in
            match rest c1 with
            | x :: s1 =>
                if x =? 93 then Ok (JArray []) (Cur (S (pos c1)) s1)
                else array_loop fuel' c1 []
            | [] => array_loop fuel' c1 []
            end
          else
            match literal (py "null") JNull c with
            | Some r => r
            | None =>
            match literal (py "true") (JBool true) c with
            | Some r => r
            | None =>
            match literal (py "false") (JBool false) c with
            | Some r => r
            | None =>
            match literal (py "NaN") (JFloat NaN) c with
            | Some r => r
            | None =>
            match literal (py "Infinity") (JFloat (Inf false)) c with
            | Some r => r
            | None =>
            match literal (py "-Infinity") (JFloat (Inf true)) c with
            | Some r => r
            | None => match_number (pos c) (rest c)
            end end end end end end
      end
  end

with object_loop (fuel : nat) (c : cursor) (acc : dict) {struct fuel} : scan JValue :=
  match fuel with
  | O => Err recursion_error
  | S fuel' =>
      match rest c with
      | q :: s1 =>
          if q =? 34 then
            match scanstring (S (pos c)) s1 with
            | Ok key c1 =>
                let c2 := skip_ws (pos c1) (rest c1) in
                match rest c2 with
                | colon :: s2 =>
                    if colon =? 58 then
                      match scan_once fuel' (skip_ws (S (pos c2)) s2) with
                      | Ok v c4 =>
                          let acc' := dict_set acc key v in
                          let c5 := skip_ws (pos c4) (rest c4) in
                          match rest c5 with
                          | x :: s5 =>
                              if x =? 125 then Ok (JObject acc') (Cur (S (pos c5)) s5)
                              else if x =? 44
                              then object_loop fuel' (skip_ws (S (pos c5)) s5) acc'
                              else Fail (py "Expecting ',' delimiter") (pos c5)
                          | [] => Fail (py "Expecting ',' delimiter") (pos c5)
                          end
                      | Stop i => Stop i
                      | Fail m i => Fail m i
                      | Err e => Err e
                      end
                    else Fail (py "Expecting ':' delimiter") (pos c2)
                | [] => Fail (py "Expecting ':' delimiter") (pos c2)
                end
            | Stop i => Stop i
            | Fail m i => Fail m i
            | Err e => Err e
            end
          else Fail (py "Expecting property name enclosed in double quotes") (pos c)
      | [] => Fail (py "Expecting property name enclosed in double quotes") (pos c)
      end
  end

with array_loop (fuel : nat) (c : cursor) (acc : list JValue) {struct fuel} : scan JValue :=
  match fuel with
  | O => Err recursion_error
  | S fuel' =>
      match scan_once fuel' c with
      | Ok v c1 =>
          let acc' := acc ++ [v] in
          let c2 := skip_ws (pos c1) (rest c1) in
          match rest c2 with
          | x :: s2 =>
              if x =? 93 then Ok (JArray acc') (Cur (S (pos c2)) s2)
              else if x =? 44
              then array_loop fuel' (skip_ws (S (pos c2)) s2) acc'
              else Fail (py "Expecting ',' delimiter") (pos c2)
          | [] => Fail (py "Expecting ',' delimiter") (pos c2)
          end
      | Stop i => Stop i
      | Fail m i => Fail m i
      | Err e => Err e
      end
  end.

(** Index of the last line feed of [s], if it has one. *)
Definition last_newline (s : pystr) : option nat :=
  fst (fold_left (fun '(found, i) c => (if c =? 10 then Some i else found, S i))
         s (None, O)).

(** [JSONDecodeError(msg, doc, pos)]: the text of the exception gives the
    line, the column and the index of the error. *)
Definition decode_error (msg doc : pystr) (p : nat) : exn :=
  let before := firstn p doc in
  let lineno := S (List.length (filter (N.eqb 10) before)) in
  let colno := match last_newline before with
               | Some i => (p - i)%nat
               | None => S p
               end in
  Exn JSONDecodeError
    (msg ++ py ": line " ++ str_of_nat lineno ++ py " column " ++ str_of_nat colno
         ++ py " (char " ++ str_of_nat p ++ py ")").

(** [json.loads(s)] for a string [s]. *)
Definition loads (s : pystr) : result JValue :=
  if startswith s [65279] then
    Raise (decode_error (py "Unexpected UTF-8 BOM (decode using utf-8-sig)") s 0)
  else
    match scan_once (2 * List.length s + 2) (skip_ws 0 s) with
    | Ok v c =>
        let c' := skip_ws (pos c) (rest c) in
        match rest c' with
        | [] => Return v
        | _ :: _ => Raise (decode_error (py "Extra data") s (pos c'))
        end
    | Stop i => Raise (decode_error (py "Expecting value") s i)
    | Fail m i => Raise (decode_error m s i)
    | Err e => Raise e
    end.

(** What the proofs about the scanner's budget speak of: a result that is
    not the exhaustion of the budget, and a result whose cursor has fewer
    than [n] characters left. *)
Definition within_budget {A} (r : scan A) : Prop :=
  match r with
  | Err e => exn_class e <> RecursionError
  | _ => True
  end.

Definition advances {A} (n : nat) (r : scan A) : Prop :=
  match r with
  | Ok _ c => (List.length (rest c) < n)%nat
  | _ => True
  end.

End Json.

(** ** The schema and the transport *)

(** Modelled from the spec: the [schema] module the client imports is not
    among the sources.  [ServiceMetadata] is the set of available agents,
    each with a unique key and display metadata, and a default agent key;
    the client reads [agents], [key] and [default_agent] only. *)
Record AgentInfo : Type := { key : pystr; description : pystr }.

Record ServiceMetadata : Type := { agents : list AgentInfo; default_agent : pystr }.

(** The [timeout] argument of a request: left out, or the client's
    [timeout] field. *)
Inductive timeout_arg : Type :=
| DefaultTimeout
| Timeout (t : option pyfloat).

(** What the client hands to [httpx]. *)
Record Request : Type := {
  method : pystr;
  url : pystr;
  json : option JValue;
  headers : list (pystr * pystr);
  timeout_of : timeout_arg
}.

(** The response to [GET /info]: what [raise_for_status()] does and what
    [ServiceMetadata.model_validate(response.json())] gives. *)
Record Response : Type := {
  raise_for_status : result unit;
  validated_json : result ServiceMetadata
}.

(** A streamed response: what [raise_for_status()] does, the lines the
    line iterator produces and, if it fails after them, its exception. *)
Record StreamResponse : Type := {
  stream_raise_for_status : result unit;
  iter_lines : list pystr;
  iter_failure : option exn
}.

(** ** The client *)

(** The fields [__init__] sets. *)
Record AgentClient : Type := {
  base_url : pystr;
  auth_secret : option pystr;
  timeout : option pyfloat;
  info : option ServiceMetadata;
  agent : option pystr
}.

Definition set_info (c : AgentClient) (md : ServiceMetadata) : AgentClient :=
  {| base_url := base_url c; auth_secret := auth_secret c; timeout := timeout c;
     info := Some md; agent := agent c |}.

Definition set_agent (c : AgentClient) (a : pystr) : AgentClient :=
  {| base_url := base_url c; auth_secret := auth_secret c; timeout := timeout c;
     info := info c; agent := Some a |}.

(** Truth value of an optional string ([if self.agent]). *)
Definition opt_truthy (o : option pystr) : bool :=
  match o with
  | Some s => str_truthy s
  | None => false
  end.

(** What a method did: the requests it sent, the client it left and how it
    ended. *)
Record effect : Type := {
  sent : list Request;
  self_after : AgentClient;
  outcome : result unit
}.

(** One complete iteration of a generator: the values it yielded and the
    exception that ended it, if one did. *)
Record run : Type := { yielded : list JValue; ending : option exn }.

(** [yield v] followed by the rest of the iteration *)
Definition yield (v : JValue) (r : run) : run :=
  {| yielded := v :: yielded r; ending := ending r |}.

Definition finished : run := {| yielded := []; ending := None |}.

Definition raising (e : exn) : run := {| yielded := []; ending := Some e |}.

(** The [except] clauses around the body of a generator: the exception
    that ends the body is handled by the first clause it matches, whose own
    iteration follows what the body yielded. *)
Fixpoint gen_handle (e : exn) (clauses : list (pyclass * (exn -> run))) : run :=
  match clauses with
  | [] => raising e
  | (cls, h) :: clauses' => if isinstance e cls then h e else gen_handle e clauses'
  end.

Definition gen_try_except (body : run) (clauses : list (pyclass * (exn -> run))) : run :=
  match ending body with
  | None => body
  | Some e =>
      let r := gen_handle e clauses in
      {| yielded := yielded body ++ yielded r; ending := ending r |}
  end.

(** [{"type": "error", "content": content}] *)
Definition error_event (content : JValue) : JValue :=
  JObject [(py "type", JString (py "error")); (py "content", content)].

Definition no_agent_selected : exn :=
  Exn AgentClientError (py "No agent selected. Use update_agent() to select an agent.").

Section Client.

(** [json.loads], [httpx.get] and the opening of a streamed [POST]
    ([httpx.stream] and [AsyncClient.stream]). *)
Variable json_loads : pystr -> result JValue.
Variable httpx_get : Request -> result Response.
Variable httpx_stream : Request -> result StreamResponse.

(** [_headers] *)
Definition _headers (c : AgentClient) : list (pystr * pystr) :=
  match auth_secret c with
  | Some secret =>
      if str_truthy secret then [(py "Authorization", py "Bearer " ++ secret)] else []
  | None => []
  end.

Definition info_request (c : AgentClient) : Request :=
  {| method := py "GET"; url := base_url c ++ py "/info"; json := None;
     headers := _headers c; timeout_of := Timeout (timeout c) |}.

(** [retrieve_info] *)
Definition retrieve_info (c : AgentClient) : effect :=
  let attempt :=
    try_except
      (response <- httpx_get (info_request c) ;;
       _ <- raise_for_status response ;;
       Return response)
      [ (ConnectError, fun _ =>
           Raise (Exn AgentClientError
                    (py "Error connecting to agent service: Connection refused")));
        (HTTPError, fun e =>
           Raise (Exn AgentClientError (py "Error getting service info: " ++ exn_str e)));
        (Exception, fun e =>
           Raise (Exn AgentClientError (py "Error getting service info: " ++ exn_str e))) ] in
  match attempt with
  | Raise e => {| sent := [info_request c]; self_after := c; outcome := Raise e |}
  | Return response =>
      match validated_json response with
      | Raise e => {| sent := [info_request c]; self_after := c; outcome := Raise e |}
      | Return md =>
          let c1 := set_info c md in
          let c2 :=
            if negb (opt_truthy (agent c1)) ||
               negb (match agent c1 with
                     | Some a => str_in a (map key (agents md))
                     | None => false
                     end)
            then set_agent c1 (default_agent md)
            else c1 in
          {| sent := [info_request c]; self_after := c2; outcome := Return tt |}
      end
  end.

(** [update_agent] *)
Definition update_agent (c : AgentClient) (agent : pystr) (verify : bool) : effect :=
  if verify then
    let loaded :=
      match info c with
      | None => retrieve_info c
      | Some _ => {| sent := []; self_after := c; outcome := Return tt |}
      end in
    match outcome loaded with
    | Raise e => loaded
    | Return _ =>
        let c1 := self_after loaded in
        match info c1 with
        | None =>
            {| sent := sent loaded; self_after := c1;
               outcome := Raise (Exn AttributeError
                                   (py "'NoneType' object has no attribute 'agents'")) |}
        | Some md =>
            let agent_keys := map key (agents md) in
            if negb (str_in agent agent_keys) then
              {| sent := sent loaded; self_after := c1;
                 outcome := Raise (Exn AgentClientError
                   (py "Agent " ++ agent ++ py " not found in available agents: "
                    ++ join (py ", ") agent_keys)) |}
            else
              {| sent := sent loaded; self_after := set_agent c1 agent;
                 outcome := Return tt |}
        end
    end
  else {| sent := []; self_after := set_agent c agent; outcome := Return tt |}.

(** The text handed to [json.loads]: the line without its ["data: "]
    prefix, or the line itself. *)
Definition data (line : pystr) : pystr :=
  if startswith line (py "data: ") then skipn 6 line else line.

(** What [_parse_stream_line] does with the parsed value. *)
Definition inspect (parsed : JValue) : result (option JValue) :=
  ty <- get parsed (py "type") JNull ;;
  if eq_str ty (py "error") then
    content <- get parsed (py "content") (JString (py "Unknown error")) ;;
    Return (Some (error_event content))
  else Return (Some parsed).

(** The two [except] clauses of [_parse_stream_line]. *)
Definition parse_clauses : list (pyclass * (exn -> result (option JValue))) :=
  [ (JSONDecodeError, fun e =>
       Return (Some (error_event (JString (py "Failed to parse response: " ++ exn_str e)))));
    (Exception, fun e =>
       Return (Some (error_event (JString (py "Unexpected error: " ++ exn_str e))))) ].

(** The [try] block of [_parse_stream_line]. *)
Definition parse_body (line : pystr) : result (option JValue) :=
  if negb (str_truthy line) || str_eqb line (py "[DONE]") then Return None
  else
    parsed <- json_loads (data line) ;;
    inspect parsed.

(** [_parse_stream_line] *)
Definition _parse_stream_line (line : pystr) : result (option JValue) :=
  try_except (parse_body line) parse_clauses.

(** What the decoder returns when [payload] is the text it hands to
    [json.loads]; the statements about the payload compare
    [_parse_stream_line] with it. *)
Definition decode (payload : pystr) : result (option JValue) :=
  try_except (parsed <- json_loads payload ;; inspect parsed) parse_clauses.

(** The [for line in response.iter_lines()] loop of [stream]; [failure] is
    what the line iterator raises after its last line, if it does. *)
Fixpoint stream_lines (lines : list pystr) (failure : option exn) : run :=
  match lines with
  | [] => {| yielded := []; ending := failure |}
  | line :: lines' =>
      if str_truthy (strip line) then
        match _parse_stream_line line with
        | Raise e => raising e
        | Return None => finished
        | Return (Some parsed) => yield parsed (stream_lines lines' failure)
        end
      else stream_lines lines' failure
  end.

(** Modelled from the spec: [StreamInput], of the absent [schema] module, is
    the request payload [{message, thread_id?, model?, stream_tokens?}];
    this is its [model_dump()] once [stream] has set the optional fields
    it was given. *)
Definition stream_input (message : pystr) (model thread_id : option pystr)
    (stream_tokens : bool) : JValue :=
  let opt (o : option pystr) :=
    match o with
    | Some s => if str_truthy s then JString s else JNull
    | None => JNull
    end in
  JObject [ (py "message", JString message); (py "model", opt model);
            (py "thread_id", opt thread_id); (py "stream_tokens", JBool stream_tokens) ].

Definition stream_request (c : AgentClient) (message : pystr)
    (model thread_id : option pystr) (stream_tokens : bool) : Request :=
  {| method := py "POST";
     url := base_url c ++ py "/"
              ++ match agent c with Some a => a | None => py "None" end
              ++ py "/stream";
     json := Some (stream_input message model thread_id stream_tokens);
     headers := _headers c;
     timeout_of := Timeout (timeout c) |}.

(** The body of a streaming call once the request is made: the status
    check, then the loop over the lines. *)
Definition open_stream (req : Request) (loop : list pystr -> option exn -> run) : run :=
  match httpx_stream req with
  | Raise e => raising e
  | Return response =>
      match stream_raise_for_status response with
      | Raise e => raising e
      | Return _ => loop (iter_lines response) (iter_failure response)
      end
  end.

(** [stream] *)
Definition stream (c : AgentClient) (message : pystr) (model thread_id : option pystr)
    (stream_tokens : bool) : run :=
  if negb (opt_truthy (agent c)) then raising no_agent_selected
  else
    gen_try_except
      (open_stream (stream_request c message model thread_id stream_tokens) stream_lines)
      [ (HTTPError, fun e =>
           raising (Exn AgentClientError (py "Error: " ++ exn_str e))) ].

(** The [async for line in response.aiter_lines()] loop of [astream]. *)
Fixpoint astream_lines (lines : list pystr) (failure : option exn) : run :=
  match lines with
  | [] => {| yielded := []; ending := failure |}
  | line :: lines' =>
      if negb (str_truthy (strip line)) then astream_lines lines' failure
      else
        match _parse_stream_line line with
        | Raise e => raising e
        | Return None => astream_lines lines' failure
        | Return (Some parsed) =>
            if truthy parsed then
              match getitem parsed (py "type") with
              | Raise e => raising e
              | Return ty =>
                  if eq_str ty (py "error")
                  then yield parsed (astream_lines lines' failure)
                  else yield parsed (astream_lines lines' failure)
              end
            else astream_lines lines' failure
        end
  end.

Definition astream_request (c : AgentClient) (message : JValue) : Request :=
  {| method := py "POST";
     url := base_url c ++ py "/orchestrator/stream";
     json := Some (match message with
                   | JString _ => JObject [(py "message", message)]
                   | _ => message
                   end);
     headers := [];
     timeout_of := DefaultTimeout |}.

(** [astream] *)
Definition astream (c : AgentClient) (message : JValue) : run :=
  gen_try_except
    (open_stream (astream_request c message) astream_lines)
    [ (HTTPError, fun e =>
         yield (error_event (JString (py "Connection error: " ++ exn_str e))) finished);
      (Exception, fun e =>
         yield (error_event (JString (py "Stream error: " ++ exn_str e))) finished) ].

End Client.

(** ** Properties named by the specification *)

(** A failure before the first line of a streamed response: opening the
    stream raises [e], or the status check of the response does. *)
Definition fails_before_first_line (reply : result StreamResponse) (e : exn) : Prop :=
  reply = Raise e \/
  exists response, reply = Return response /\ stream_raise_for_status response = Raise e.

(** The iteration yields nothing and ends with an [AgentClientError]. *)
Definition raised_not_yielded (r : run) : Prop :=
  yielded r = [] /\ exists msg, ending r = Some (Exn AgentClientError msg).

(** The membership invariant of the specification: a selected agent is a
    key of the metadata whenever the metadata is present. *)
Definition selected_agent_known (c : AgentClient) : bool :=
  match agent c, info c with
  | Some a, Some md => negb (str_truthy a) || str_in a (map key (agents md))
  | _, _ => true
  end.

(** ** Sample data for the closed statements *)

Definition agent_a : AgentInfo := {| key := py "a"; description := py "first agent" |}.
Definition agent_b : AgentInfo := {| key := py "b"; description := py "second agent" |}.

Definition metadata_ab : ServiceMetadata :=
  {| agents := [agent_a; agent_b]; default_agent := py "a" |}.

Definition metadata_ba : ServiceMetadata :=
  {| agents := [agent_b; agent_a]; default_agent := py "a" |}.

Definition client_of (md : ServiceMetadata) (selected : pystr) : AgentClient :=
  {| base_url := py "http://localhost"; auth_secret := None; timeout := None;
     info := Some md; agent := Some selected |}.

Definition connect_error : exn := Exn ConnectError (py "[Errno 111] Connection refused").

(** A service that refuses every connection. *)
Definition refused_get (_ : Request) : result Response := Raise connect_error.
Definition refused_stream (_ : Request) : result StreamResponse := Raise connect_error.

(** A service that streams the given lines and closes. *)
Definition streaming (lines : list pystr) (_ : Request) : result StreamResponse :=
  Return {| stream_raise_for_status := Return tt; iter_lines := lines;
            iter_failure := None |}.

Definition token (text : string) : JValue :=
  JObject [(py "type", JString (py "token")); (py "content", JString (py text))].

(** A JSON text written with an apostrophe for each double quote. *)
Definition jpy (s : string) : pystr :=
  map (fun c => if (c =? 39)%N then 34%N else c) (py s).

(** ** The constructor and the one-shot requests *)

(** The response to a [POST]: what [raise_for_status()] does and what
    [response.json()] gives. *)
Record PostResponse : Type := {
  post_raise_for_status : result unit;
  response_json : result JValue
}.

(** What a request method did: the requests it handed to [httpx] and how
    it ended. *)
Record call (A : Type) : Type := { requested : list Request; returned : result A }.
Arguments requested {A} c.
Arguments returned {A} c.

(** An optional field of a request model: left to the default of the
    schema, given to the constructor, or assigned after construction. *)
Inductive field : Type :=
| Default
| Given (v : option pystr)
| Assigned (v : pystr).

(** [if v: request.f = v] *)
Definition assign_if (v : option pystr) : field :=
  match v with
  | Some s => if str_truthy s then Assigned s else Default
  | None => Default
  end.

Section Requests.

Variable httpx_get : Request -> result Response.
Variable httpx_post : Request -> result PostResponse.

(** The models of the [schema] module, which is not among the sources, are
    parameters: the types [ChatMessage] and [ChatHistory] with their
    [model_validate], and [model_dump()] of a [UserInput] (message,
    thread_id, model), of a [ChatHistoryInput] (thread_id) and of a
    [Feedback] (run_id, key, score, kwargs). *)
Variable ChatMessage : Type.
Variable ChatHistory : Type.
Variable ChatMessage_model_validate : JValue -> result ChatMessage.
Variable ChatHistory_model_validate : JValue -> result ChatHistory.
Variable UserInput_model_dump : pystr -> field -> field -> JValue.
Variable ChatHistoryInput_model_dump : pystr -> JValue.
Variable Feedback_model_dump : pystr -> pystr -> pyfloat -> JValue -> JValue.

(** [__init__]; [env_auth_secret] is [os.getenv("AUTH_SECRET")].  When the
    outcome is an exception no client is built. *)
Definition __init__ (env_auth_secret : option pystr) (base_url : pystr)
    (agent : option pystr) (timeout : option pyfloat) (get_info : bool) : effect :=
  let c0 := {| base_url := base_url; auth_secret := env_auth_secret;
               timeout := timeout; info := None; agent := None |} in
  let fetched :=
    if get_info then retrieve_info httpx_get c0
    else {| sent := []; self_after := c0; outcome := Return tt |} in
  match outcome fetched with
  | Raise _ => fetched
  | Return _ =>
      match agent with
      | Some a =>
          if str_truthy a then
            let updated := update_agent httpx_get (self_after fetched) a true in
            {| sent := sent fetched ++ sent updated;
               self_after := self_after updated;
               outcome := outcome updated |}
          else fetched
      | None => fetched
      end
  end.

(** The [try] block the request methods share: the [POST], the status
    check and what the method does with the response inside the block; an
    [httpx.HTTPError] becomes [AgentClientError(f"Error: {e}")]. *)
Definition try_post {A} (req : Request) (inside : PostResponse -> result A) : result A :=
  try_except
    (response <- httpx_post req ;;
     _ <- post_raise_for_status response ;;
     inside response)
    [ (HTTPError, fun e => Raise (Exn AgentClientError (py "Error: " ++ exn_str e))) ].

Definition invoke_request (c : AgentClient) (payload : JValue) : Request :=
  {| method := py "POST";
     url := base_url c ++ py "/"
              ++ match agent c with Some a => a | None => py "None" end
              ++ py "/invoke";
     json := Some payload;
     headers := _headers c;
     timeout_of := Timeout (timeout c) |}.

(** [ainvoke] *)
Definition ainvoke (c : AgentClient) (message : pystr) (model thread_id : option pystr)
  : call ChatMessage :=
  if negb (opt_truthy (agent c)) then
    {| requested := []; returned := Raise no_agent_selected |}
  else
    let req := invoke_request c
                 (UserInput_model_dump message (Given thread_id) (Given model)) in
    {| requested := [req];
       returned :=
         response <- try_post req (fun response => Return response) ;;
         body <- response_json response ;;
         ChatMessage_model_validate body |}.

(** [invoke] *)
Definition invoke (c : AgentClient) (message : pystr) (model thread_id : option pystr)
  : call ChatMessage :=
  if negb (opt_truthy (agent c)) then
    {| requested := []; returned := Raise no_agent_selected |}
  else
    let req := invoke_request c
                 (UserInput_model_dump message (assign_if thread_id) (assign_if model)) in
    {| requested := [req];
       returned :=
         response <- try_post req (fun response => Return response) ;;
         body <- response_json response ;;
         ChatMessage_model_validate body |}.

(** [acreate_feedback]: [response.json()] is called inside the [try]
    block and its value dropped. *)
Definition acreate_feedback (c : AgentClient) (run_id key : pystr) (score : pyfloat)
    (kwargs : JValue) : call unit :=
  let req := {| method := py "POST"; url := base_url c ++ py "/feedback";
                json := Some (Feedback_model_dump run_id key score kwargs);
                headers := _headers c; timeout_of := Timeout (timeout c) |} in
  {| requested := [req];
     returned := try_post req (fun response =>
                   _ <- response_json response ;; Return tt) |}.

(** [get_history] *)
Definition get_history (c : AgentClient) (thread_id : pystr) : call ChatHistory :=
  let req := {| method := py "POST"; url := base_url c ++ py "/history";
                json := Some (ChatHistoryInput_model_dump thread_id);
                headers := _headers c; timeout_of := Timeout (timeout c) |} in
  {| requested := [req];
     returned :=
       response <- try_post req (fun response => Return response) ;;
       body <- response_json response ;;
       ChatHistory_model_validate body |}.

End Requests.

(** ** Notions used to describe the streams *)

(** A line the loops decode: [line.strip()] is not empty. *)
Definition nonblank (line : pystr) : bool := str_truthy (strip line).

Definition is_done (line : pystr) : bool := str_eqb line (py "[DONE]").

(** The lines that come before the first termination token. *)
Fixpoint until_done (lines : list pystr) : list pystr :=
  match lines with
  | [] => []
  | line :: lines' => if is_done line then [] else line :: until_done lines'
  end.

(** The events the decoder makes of the lines, one after the other. *)
Definition decoded_events (json_loads : pystr -> result JValue) (lines : list pystr)
  : list JValue :=
  flat_map (fun line =>
              match _parse_stream_line json_loads line with
              | Return (Some ev) => [ev]
              | _ => []
              end) lines.

(** A dictionary with a ["type"] entry. *)
Definition has_type (v : JValue) : Prop :=
  exists ty, getitem v (py "type") = Return ty.

(** The payload of a dictionary is an error report: its ["type"] is the
    string ["error"]. *)
Definition type_is_error (d : dict) : bool :=
  match dict_get d (py "type") with
  | Some ty => eq_str ty (py "error")
  | None => false
  end.

(** The agent [retrieve_info] leaves selected: the one that was, if it is
    not empty and is a key of the metadata, and the default agent of the
    metadata otherwise. *)
Definition kept_or_default (selected : option pystr) (md : ServiceMetadata) : pystr :=
  match selected with
  | Some a =>
      if str_truthy a && str_in a (map key (agents md)) then a else default_agent md
  | None => default_agent md
  end.

(** What the transport answered to a request made before any response
    body is read: the exception of the request or of the status check. *)
Definition get_fails (reply : result Response) (e : exn) : Prop :=
  reply = Raise e \/
  exists response, reply = Return response /\ raise_for_status response = Raise e.

Definition post_fails (reply : result PostResponse) (e : exn) : Prop :=
  reply = Raise e \/
  exists response, reply = Return response /\ post_raise_for_status response = Raise e.

(** A service that answers [GET /info] with the given metadata. *)
Definition serving (md : ServiceMetadata) (_ : Request) : result Response :=
  Return {| raise_for_status := Return tt; validated_json := Return md |}.

(** A client that has neither metadata nor agent. *)
Definition fresh_client : AgentClient :=
  {| base_url := py "http://localhost"; auth_secret := None; timeout := None;
     info := None; agent := None |}.

(** A stream that breaks with [e] after the given lines. *)
Definition breaking (lines : list pystr) (e : exn) (_ : Request) : result StreamResponse :=
  Return {| stream_raise_for_status := Return tt; iter_lines := lines;
            iter_failure := Some e |}.

Definition read_error : exn := Exn HTTPError (py "peer closed connection").

(** A service that answers every [POST] with the given JSON body. *)
Definition posting (body : JValue) (_ : Request) : result PostResponse :=
  Return {| post_raise_for_status := Return tt; response_json := Return body |}.

Definition refused_post (_ : Request) : result PostResponse := Raise connect_error.

(** Modelled from the spec: the payloads of the absent [schema] module, for
    the closed statements.  A [UserInput] is [{message, thread_id?,
    model?}], a [ChatHistoryInput] is [{thread_id}] and a [Feedback] is
    [{run_id, key, score, kwargs}]; an optional field left to its default
    is taken to be [null]. *)
Definition field_value (f : field) : JValue :=
  match f with
  | Default | Given None => JNull
  | Given (Some s) | Assigned s => JString s
  end.

Definition user_input_dump (message : pystr) (thread_id model : field) : JValue :=
  JObject [ (py "message", JString message); (py "thread_id", field_value thread_id);
            (py "model", field_value model) ].

Definition history_input_dump (thread_id : pystr) : JValue :=
  JObject [(py "thread_id", JString thread_id)].

Definition feedback_dump (run_id key : pystr) (score : pyfloat) (kwargs : JValue) : JValue :=
  JObject [ (py "run_id", JString run_id); (py "key", JString key);
            (py "score", JFloat score); (py "kwargs", kwargs) ].

(** A validation that accepts the dictionaries and keeps them as they
    are. *)
Definition accept_dict (body : JValue) : result JValue :=
  if is_dict body then Return body
  else Raise (Exn ValidationError (py "Input should be a valid dictionary")).

(** A caller making several [update_agent] calls on the same client, one
    after the other, each with its key and its [verify] flag: the requests
    sent over all the calls and the client left at the end.  A call that
    raises leaves the client as it made it, and the next call goes on from
    there. *)
Fixpoint update_agent_calls (httpx_get : Request -> result Response) (c : AgentClient)
    (calls : list (pystr * bool)) : list Request * AgentClient :=
  match calls with
  | [] => ([], c)
  | (k, verify) :: calls' =>
      let done := update_agent httpx_get c k verify in
      let (requests, c') := update_agent_calls httpx_get (self_after done) calls' in
      (sent done ++ requests, c')
  end.

(** ** Strings *)

Lemma str_eqb_refl (a : pystr) : str_eqb a a = true.
Proof.
  induction a as [|x a IH]; simpl; [reflexivity|].
  now rewrite N.eqb_refl, IH.
Qed.

Lemma str_eqb_eq (a b : pystr) : str_eqb a b = true <-> a = b.
Proof.
  split.
  - revert b; induction a as [|x a IH]; intros [|y b] H; simpl in H;
      try discriminate; [reflexivity|].
    apply andb_true_iff in H as [Hx Hab].
    apply N.eqb_eq in Hx. apply IH in Hab. now subst.
  - intros ->. apply str_eqb_refl.
Qed.

Lemma str_eqb_neq (a b : pystr) : a <> b -> str_eqb a b = false.
Proof.
  intros H. destruct (str_eqb a b) eqn:E; [|reflexivity].
  apply str_eqb_eq in E. contradiction.
Qed.

Lemma startswith_app (p s : pystr) : startswith (p ++ s) p = true.
Proof.
  induction p as [|x p IH]; simpl; [now destruct s|].
  now rewrite N.eqb_refl, IH.
Qed.

Lemma startswith_split (s p : pystr) :
  startswith s p = true -> s = p ++ skipn (List.length p) s.
Proof.
  revert s; induction p as [|x p IH]; intros s H; [reflexivity|].
  destruct s as [|y s]; simpl in H; [discriminate|].
  apply andb_true_iff in H as [Hx Hs].
  apply N.eqb_eq in Hx. subst y. simpl. f_equal. now apply IH.
Qed.

Lemma contains_startswith (s sub : pystr) :
  startswith s sub = true -> contains s sub = true.
Proof.
  intros H. destruct s; cbn [contains]; now rewrite H.
Qed.

Lemma contains_app_mid (a b c : pystr) : contains (a ++ b ++ c) b = true.
Proof.
  induction a as [|x a IH]; simpl.
  - apply contains_startswith, startswith_app.
  - rewrite IH. apply orb_true_r.
Qed.

Lemma lstrip_nil_iff (s : pystr) : lstrip s = [] <-> forallb isspace s = true.
Proof.
  induction s as [|c s IH]; simpl; [tauto|].
  destruct (isspace c); simpl; [exact IH|].
  split; discriminate.
Qed.

Lemma lstrip_head (s : pystr) :
  match lstrip s with
  | [] => True
  | c :: _ => isspace c = false
  end.
Proof.
  induction s as [|c s IH]; simpl; [exact I|].
  destruct (isspace c) eqn:E; [exact IH|exact E].
Qed.

(** A line that [strip()] empties is made of white space only. *)
Lemma strip_nil_iff (s : pystr) : strip s = [] <-> forallb isspace s = true.
Proof.
  unfold strip, rstrip. split.
  - intros H. apply (f_equal (@rev N)) in H. rewrite rev_involutive in H.
    simpl in H. apply lstrip_nil_iff in H.
    rewrite forallb_forall in H.
    pose proof (lstrip_head s) as Hh.
    destruct (lstrip s) as [|c t] eqn:E.
    + now apply lstrip_nil_iff.
    + rewrite (H c) in Hh; [discriminate|].
      apply in_rev. rewrite rev_involutive. now left.
  - intros H. apply lstrip_nil_iff in H. now rewrite H.
Qed.

(** A blank line carries neither the termination token nor the prefix. *)
Lemma blank_line_shape (line : pystr) :
  strip line = [] ->
  str_eqb line (py "[DONE]") = false /\ startswith line (py "data: ") = false.
Proof.
  intros H. apply strip_nil_iff in H.
  destruct line as [|c line]; [split; reflexivity|].
  simpl in H. apply andb_true_iff in H as [Hc _].
  split.
  - apply str_eqb_neq. intros E. injection E as -> _. discriminate.
  - cbn -[N.eqb]. destruct (N.eqb_spec 100 c) as [<-|_]; [discriminate|reflexivity].
Qed.

Lemma isinstance_Exception (e : exn) : isinstance e Exception = true.
Proof. reflexivity. Qed.

(** ** The budget of the scanner *)

Module JsonFacts.
Import Json.

Lemma advances_mono {A} (n m : nat) (r : scan A) : n <= m -> advances n r -> advances m r.
Proof. destruct r; simpl; lia. Qed.

Lemma skip_ws_rest (p : nat) (s : pystr) : List.length (rest (skip_ws p s)) <= List.length s.
Proof.
  revert p; induction s as [|c s IH]; intros p; simpl; [lia|].
  destruct (is_ws c); simpl; [specialize (IH (S p)); lia | lia].
Qed.

Lemma scanstring_from_advances (n : nat) :
  forall s, List.length s <= n ->
  forall begin p acc,
    within_budget (scanstring_from begin p s acc) /\
    advances (List.length s) (scanstring_from begin p s acc).
Proof.
  induction n as [|n IH]; intros s Hn begin p acc.
  - destruct s; [simpl; auto | simpl in Hn; lia].
  - destruct s as [|c s1]; [simpl; auto|].
    cbn [scanstring_from].
    repeat match goal with
    | |- context [if ?b then _ else _] => destruct b
    | |- context [match ?x with [] => _ | _ :: _ => _ end] => destruct x
    | |- context [match hex4 ?a ?b ?c ?d with _ => _ end] => destruct (hex4 a b c d)
    | |- context [match unescape ?a with _ => _ end] => destruct (unescape a)
    end;
    try (simpl; split; [exact I | lia]);
    try (simpl; split; exact I);
    match goal with
    | |- within_budget (scanstring_from ?b ?q ?t ?a) /\ _ =>
        destruct (IH t ltac:(simpl in *; lia) b q a) as [H1 H2];
        split; [exact H1 | eapply advances_mono; [|exact H2]; simpl; lia]
    end.
Qed.

Lemma scanstring_advances (p : nat) (s : pystr) :
  within_budget (scanstring p s) /\ advances (List.length s) (scanstring p s).
Proof. apply (scanstring_from_advances (List.length s)). lia. Qed.

Lemma span_digits_rest (s : pystr) :
  List.length (snd (span_digits s)) <= List.length s.
Proof.
  induction s as [|c s IH]; simpl; [lia|].
  destruct (is_digit c); simpl; [|lia].
  destruct (span_digits s); simpl in *. lia.
Qed.

Lemma parse_int_class (neg : bool) (ds : pystr) (e : exn) :
  parse_int neg ds = Raise e -> exn_class e <> RecursionError.
Proof.
  unfold parse_int. destruct (_ <? _)%nat; [|discriminate].
  intros H. injection H as <-. discriminate.
Qed.

Lemma take_sign_rest (s : pystr) : List.length (snd (take_sign s)) <= List.length s.
Proof. destruct s as [|c s]; simpl; [lia|]. destruct (c =? 45)%N; simpl; lia. Qed.

Lemma take_integer_rest (s ids r : pystr) :
  take_integer s = Some (ids, r) -> List.length r < List.length s.
Proof.
  destruct s as [|c s]; simpl; [discriminate|].
  destruct (c =? 48)%N.
  - intros H. injection H as _ <-. lia.
  - destruct (is_digit c); [|discriminate].
    pose proof (span_digits_rest s) as Hs. destruct (span_digits s) as [d r'].
    intros H. injection H as _ <-. simpl in Hs. lia.
Qed.

Lemma take_fraction_rest (s : pystr) :
  List.length (snd (take_fraction s)) <= List.length s.
Proof.
  destruct s as [|dot [|d r]]; simpl; try lia.
  destruct ((dot =? 46)%N && is_digit d); [|simpl; lia].
  pose proof (span_digits_rest (d :: r)). simpl in *. lia.
Qed.

Lemma take_exponent_rest (s : pystr) :
  List.length (snd (take_exponent s)) <= List.length s.
Proof.
  destruct s as [|e r]; [simpl; lia|]. unfold take_exponent.
  destruct ((e =? 101)%N || (e =? 69)%N); [|simpl; lia].
  match goal with
  | |- context [let (sneg, r') := ?Y in _] => set (sg := Y)
  end.
  assert (Hsg : List.length (snd sg) <= List.length r).
  { unfold sg. destruct r as [|x [|y r]]; simpl; try lia.
    destruct (x =? 45)%N; [simpl; lia|]. destruct (x =? 43)%N; simpl; lia. }
  destruct sg as [sneg r']. cbn [snd] in Hsg.
  pose proof (span_digits_rest r') as Hsp.
  destruct (span_digits r') as [[|x ds] r'']; simpl in *; lia.
Qed.

Lemma match_number_advances (p : nat) (s : pystr) :
  within_budget (match_number p s) /\ advances (List.length s) (match_number p s).
Proof.
  unfold match_number.
  pose proof (take_sign_rest s) as H1. destruct (take_sign s) as [neg s1].
  destruct (take_integer s1) as [[ids r1]|] eqn:E; [|simpl; auto].
  apply take_integer_rest in E.
  pose proof (take_fraction_rest r1) as H2. destruct (take_fraction r1) as [fds r2].
  pose proof (take_exponent_rest r2) as H3. destruct (take_exponent r2) as [[eneg eds] r3].
  cbn [snd] in *.
  destruct fds, eds; try (simpl; split; [exact I | lia]).
  destruct (parse_int neg ids) eqn:Ei; simpl.
  - split; [exact I | lia].
  - split; [now apply (parse_int_class neg ids) | exact I].
Qed.

Lemma startswith_length (s p : pystr) :
  startswith s p = true -> List.length p <= List.length s.
Proof.
  revert s; induction p as [|x p IH]; intros s H; simpl; [lia|].
  destruct s as [|y s]; simpl in H; [discriminate|].
  apply andb_true_iff in H as [_ H]. apply IH in H. simpl. lia.
Qed.

Lemma literal_advances (word : pystr) (v : JValue) (c : cursor) (r : scan JValue) :
  word <> [] -> literal word v c = Some r ->
  within_budget r /\ advances (List.length (rest c)) r.
Proof.
  intros Hw. unfold literal. destruct (startswith (rest c) word) eqn:E; [|discriminate].
  intros H. injection H as <-. simpl. split; [exact I|].
  apply startswith_length in E. rewrite length_skipn.
  destruct word; [contradiction|]. simpl in *. lia.
Qed.

Lemma scan_advances (fuel : nat) :
  (forall c, 2 * List.length (rest c) + 1 <= fuel ->
     within_budget (scan_once fuel c) /\
     advances (List.length (rest c)) (scan_once fuel c)) /\
  (forall c acc, 2 * List.length (rest c) + 2 <= fuel ->
     within_budget (object_loop fuel c acc) /\
     advances (List.length (rest c)) (object_loop fuel c acc)) /\
  (forall c acc, 2 * List.length (rest c) + 2 <= fuel ->
     within_budget (array_loop fuel c acc) /\
     advances (List.length (rest c)) (array_loop fuel c acc)).
Proof.
  induction fuel as [|fuel [IHs [IHo IHa]]].
  - repeat split; intros; lia.
  - split; [|split].
    + intros [p s] Hf. cbn [rest pos] in *. cbn [scan_once rest pos].
      destruct s as [|ch s']; [simpl; auto|].
      destruct (ch =? 34)%N.
      { destruct (scanstring_advances (S p) s') as [H1 H2].
        destruct (scanstring (S p) s'); simpl in *; solve [auto | split; [exact I | lia]]. }
      destruct (ch =? 123)%N.
      { pose proof (skip_ws_rest (S p) s') as Hw.
        destruct (skip_ws (S p) s') as [p1 r1] eqn:Ec. cbn [rest pos] in *.
        assert (Hloop : forall acc,
                  within_budget (object_loop fuel (Cur p1 r1) acc) /\
                  advances (List.length (ch :: s')) (object_loop fuel (Cur p1 r1) acc)).
        { intros acc. destruct (IHo (Cur p1 r1) acc) as [H1 H2];
            [cbn [rest]; simpl in Hf; lia|].
          split; [exact H1|]. eapply advances_mono; [|exact H2]. simpl. lia. }
        destruct r1 as [|x s1]; [apply Hloop|].
        destruct (x =? 125)%N; [|apply Hloop].
        simpl in *. split; [exact I | lia]. }
      destruct (ch =? 91)%N.
      { pose proof (skip_ws_rest (S p) s') as Hw.
        destruct (skip_ws (S p) s') as [p1 r1] eqn:Ec. cbn [rest pos] in *.
        assert (Hloop : forall acc,
                  within_budget (array_loop fuel (Cur p1 r1) acc) /\
                  advances (List.length (ch :: s')) (array_loop fuel (Cur p1 r1) acc)).
        { intros acc. destruct (IHa (Cur p1 r1) acc) as [H1 H2];
            [cbn [rest]; simpl in Hf; lia|].
          split; [exact H1|]. eapply advances_mono; [|exact H2]. simpl. lia. }
        destruct r1 as [|x s1]; [apply Hloop|].
        destruct (x =? 93)%N; [|apply Hloop].
        simpl in *. split; [exact I | lia]. }
      repeat match goal with
      | |- context [match literal ?w ?v ?c with _ => _ end] =>
          let E := fresh "E" in
          destruct (literal w v c) eqn:E;
          [ apply (literal_advances w v c _ ltac:(discriminate) E) | clear E ]
      end.
      apply match_number_advances.
    + intros [p s] acc Hf. cbn [rest pos] in *. cbn [object_loop rest pos].
      destruct s as [|q s1]; [simpl; auto|].
      destruct (q =? 34)%N; [|simpl; auto].
      destruct (scanstring_advances (S p) s1) as [H1 H2].
      destruct (scanstring (S p) s1) as [k [p1 r1]| | |]; simpl in H1, H2; auto.
      cbn [rest pos].
      pose proof (skip_ws_rest p1 r1) as Hw2.
      destruct (skip_ws p1 r1) as [p2 r2]. cbn [rest pos] in *.
      destruct r2 as [|colon s2]; [simpl; auto|].
      destruct (colon =? 58)%N; [|simpl; auto].
      pose proof (skip_ws_rest (S p2) s2) as Hw3.
      destruct (skip_ws (S p2) s2) as [p3 r3]. cbn [rest pos] in *.
      destruct (IHs (Cur p3 r3)) as [H3 H4]; [cbn [rest]; simpl in *; lia|].
      destruct (scan_once fuel (Cur p3 r3)) as [v [p4 r4]| | |];
        simpl in H3, H4; auto.
      cbn [rest pos].
      pose proof (skip_ws_rest p4 r4) as Hw5.
      destruct (skip_ws p4 r4) as [p5 r5]. cbn [rest pos] in *.
      destruct r5 as [|x s5]; [simpl; auto|].
      destruct (x =? 125)%N; [simpl in *; split; [exact I | lia]|].
      destruct (x =? 44)%N; [|simpl; auto].
      pose proof (skip_ws_rest (S p5) s5) as Hw6.
      destruct (skip_ws (S p5) s5) as [p6 r6]. cbn [rest pos] in *.
      destruct (IHo (Cur p6 r6) (dict_set acc k v)) as [H5 H6];
        [cbn [rest]; simpl in *; lia|].
      split; [exact H5|]. eapply advances_mono; [|exact H6]. simpl in *. lia.
    + intros [p s] acc Hf. cbn [rest pos] in *. cbn [array_loop].
      destruct (IHs (Cur p s)) as [H3 H4]; [cbn [rest]; lia|].
      destruct (scan_once fuel (Cur p s)) as [v [p1 r1]| | |];
        simpl in H3, H4; auto.
      cbn [rest pos].
      pose proof (skip_ws_rest p1 r1) as Hw2.
      destruct (skip_ws p1 r1) as [p2 r2]. cbn [rest pos] in *.
      destruct r2 as [|x s2]; [simpl; auto|].
      destruct (x =? 93)%N; [simpl in *; split; [exact I | lia]|].
      destruct (x =? 44)%N; [|simpl; auto].
      pose proof (skip_ws_rest (S p2) s2) as Hw3.
      destruct (skip_ws (S p2) s2) as [p3 r3]. cbn [rest pos] in *.
      destruct (IHa (Cur p3 r3) (acc ++ [v])) as [H5 H6];
        [cbn [rest]; simpl in *; lia|].
      split; [exact H5|]. eapply advances_mono; [|exact H6]. simpl in *. lia.
Qed.

(** The budget [loads] gives the scanner is never used up. *)
Theorem loads_within_budget (s : pystr) (e : exn) :
  loads s = Raise e -> exn_class e <> RecursionError.
Proof.
  unfold loads. destruct (startswith s [65279%N]).
  - intros H. injection H as <-. discriminate.
  - pose proof (skip_ws_rest 0 s) as Hw.
    destruct (proj1 (scan_advances (2 * List.length s + 2)) (skip_ws 0 s)) as [H1 _];
      [lia|].
    destruct (scan_once _ _) as [v c| | |]; simpl in H1.
    + destruct (rest (skip_ws (pos c) (rest c))); [discriminate|].
      intros H. injection H as <-. discriminate.
    + intros H. injection H as <-. discriminate.
    + intros H. injection H as <-. discriminate.
    + intros H. injection H as <-. exact H1.
Qed.

End JsonFacts.

(** ** The line decoder *)

Section Decoder.

Variable json_loads : pystr -> result JValue.

Local Abbreviation parse := (_parse_stream_line json_loads).

Lemma handle_decode_error (e : exn) :
  isinstance e JSONDecodeError = true ->
  handle e parse_clauses =
  Return (Some (error_event (JString (py "Failed to parse response: " ++ exn_str e)))).
Proof. intros H. unfold parse_clauses. cbn [handle]. now rewrite H. Qed.

Lemma handle_unexpected (e : exn) :
  isinstance e JSONDecodeError = false ->
  handle e parse_clauses =
  Return (Some (error_event (JString (py "Unexpected error: " ++ exn_str e)))).
Proof.
  intros H. unfold parse_clauses. cbn [handle].
  now rewrite H, isinstance_Exception.
Qed.

(** Whatever the [try] block raises, a clause turns it into an event. *)
Lemma handle_event (e : exn) : exists ev, handle e parse_clauses = Return (Some ev).
Proof.
  destruct (isinstance e JSONDecodeError) eqn:E.
  - eexists. now apply handle_decode_error.
  - eexists. now apply handle_unexpected.
Qed.

Lemma inspect_dict (d : dict) : exists ev, inspect (JObject d) = Return (Some ev).
Proof.
  unfold inspect. cbn [get bind].
  destruct (eq_str _ _); eexists; reflexivity.
Qed.

Lemma inspect_not_dict (v : JValue) :
  is_dict v = false ->
  inspect v =
  Raise (Exn AttributeError (py "'" ++ type_name v ++ py "' object has no attribute 'get'")).
Proof. destruct v; intros H; try discriminate; reflexivity. Qed.

Lemma decode_event (payload : pystr) :
  exists ev, decode json_loads payload = Return (Some ev).
Proof.
  unfold decode. destruct (json_loads payload) as [v|e]; cbn [bind try_except].
  - destruct (is_dict v) eqn:E.
    + destruct v; try discriminate. destruct (inspect_dict d) as [ev ->].
      now exists ev.
    + rewrite (inspect_not_dict v E). apply handle_event.
  - apply handle_event.
Qed.

Lemma parse_empty : parse [] = Return None.
Proof. reflexivity. Qed.

Lemma parse_done : parse (py "[DONE]") = Return None.
Proof. reflexivity. Qed.

Lemma parse_decodes (line : pystr) :
  line <> [] -> line <> py "[DONE]" -> parse line = decode json_loads (data line).
Proof.
  intros Hne Hdone. unfold _parse_stream_line, parse_body, decode.
  destruct line as [|c line]; [contradiction|].
  cbn [str_truthy negb orb]. now rewrite (str_eqb_neq _ _ Hdone).
Qed.

(** The decoder answers [None] for the empty line and the termination
    token, and an event for every other line. *)
Lemma parse_none_iff (line : pystr) :
  parse line = Return None <-> line = [] \/ line = py "[DONE]".
Proof.
  split.
  - intros H. destruct line as [|c line]; [now left|right].
    destruct (str_eqb (c :: line) (py "[DONE]")) eqn:E; [now apply str_eqb_eq|].
    rewrite parse_decodes in H.
    + destruct (decode_event (data (c :: line))) as [ev Hev].
      rewrite Hev in H. discriminate.
    + discriminate.
    + intros Heq. rewrite Heq, str_eqb_refl in E. discriminate.
  - intros [-> | ->]; reflexivity.
Qed.

Lemma parse_event (line : pystr) :
  line <> [] -> line <> py "[DONE]" -> exists ev, parse line = Return (Some ev).
Proof.
  intros H1 H2. rewrite (parse_decodes line H1 H2). apply decode_event.
Qed.

Lemma truthy_strip_nonempty (line : pystr) :
  str_truthy (strip line) = true -> line <> [].
Proof. intros H ->. discriminate. Qed.

(** *** C5 *)

(** C5. [_parse_stream_line] returns for every line and never raises; and
    whatever exception the [try] block raises that is not a
    [JSONDecodeError] -- in the prefix handling, in [json.loads] or in the
    inspection of the parsed value -- comes back as the error event whose
    content is ["Unexpected error: "] followed by the text of the
    exception. *)
Theorem parse_stream_line_total (line : pystr) :
  (exists r, parse line = Return r) /\
  (forall e, parse_body json_loads line = Raise e ->
             isinstance e JSONDecodeError = false ->
             parse line =
             Return (Some (JObject
               [ (py "type", JString (py "error"));
                 (py "content", JString (py "Unexpected error: " ++ exn_str e)) ]))) /\
  (forall e, line <> [] -> line <> py "[DONE]" ->
             json_loads (data line) = Raise e ->
             isinstance e JSONDecodeError = false ->
             parse line =
             Return (Some (JObject
               [ (py "type", JString (py "error"));
                 (py "content", JString (py "Unexpected error: " ++ exn_str e)) ]))).
Proof.
  split; [|split].
  - unfold _parse_stream_line.
    destruct (parse_body json_loads line) as [r|e]; cbn [try_except].
    + now exists r.
    + destruct (handle_event e) as [ev ->]. now exists (Some ev).
  - intros e Hbody Hcls. unfold _parse_stream_line. rewrite Hbody.
    cbn [try_except]. exact (handle_unexpected e Hcls).
  - intros e Hne Hdone Hloads Hcls.
    rewrite (parse_decodes line Hne Hdone). unfold decode. rewrite Hloads.
    cbn [bind try_except]. exact (handle_unexpected e Hcls).
Qed.

(** *** C9 *)

(** C9. When the payload of a line parses to a value that is not a JSON
    object, the value is not passed through: reading its [type] raises
    [AttributeError], the catch-all clause handles it, and the line becomes
    the error event ["Unexpected error: '<type>' object has no attribute
    'get'"]. *)
Theorem parse_stream_line_non_object (line : pystr) (v : JValue) :
  line <> [] -> line <> py "[DONE]" ->
  json_loads (data line) = Return v ->
  is_dict v = false ->
  parse line =
  Return (Some (JObject
    [ (py "type", JString (py "error"));
      (py "content", JString
         (py "Unexpected error: " ++
          py "'" ++ type_name v ++ py "' object has no attribute 'get'")) ])) /\
  parse line <> Return (Some v).
Proof.
  intros Hne Hdone Hloads Hv.
  assert (E : parse line =
    Return (Some (JObject
      [ (py "type", JString (py "error"));
        (py "content", JString
           (py "Unexpected error: " ++
            py "'" ++ type_name v ++ py "' object has no attribute 'get'")) ]))).
  { rewrite (parse_decodes line Hne Hdone). unfold decode. rewrite Hloads.
    cbn [bind]. rewrite (inspect_not_dict v Hv). cbn [try_except].
    now rewrite handle_unexpected. }
  split; [exact E|].
  rewrite E. intros H. injection H as H. rewrite <- H in Hv. discriminate.
Qed.

(** *** C7 *)

(** C7 (amended). For every non-empty line other than the termination
    token, the decoder answers as [decode] does on the payload [data line]:
    when the line begins with ["data: "] the payload is the line without
    these six characters, and otherwise it is the whole line as received --
    the decoder does not trim it. *)
Theorem parse_stream_line_payload (line : pystr) :
  line <> [] -> line <> py "[DONE]" ->
  parse line = decode json_loads (data line) /\
  (startswith line (py "data: ") = true ->
   data line = skipn 6 line /\ line = py "data: " ++ data line) /\
  (startswith line (py "data: ") = false -> data line = line).
Proof.
  intros Hne Hdone. split; [now apply parse_decodes|]. unfold data. split.
  - intros H. rewrite H. split; [reflexivity|].
    exact (startswith_split line (py "data: ") H).
  - intros H. now rewrite H.
Qed.

(** A line that begins with the prefix is decoded as what follows it. *)
Lemma parse_prefixed (payload : pystr) :
  parse (py "data: " ++ payload) = decode json_loads payload.
Proof.
  rewrite parse_decodes; [|discriminate|discriminate].
  unfold data. now rewrite startswith_app.
Qed.

End Decoder.

(** ** The streaming loops *)

Section Streaming.

Variable json_loads : pystr -> result JValue.
Variable httpx_stream : Request -> result StreamResponse.

Local Abbreviation parse := (_parse_stream_line json_loads).
Local Abbreviation sync_loop := (stream_lines json_loads).
Local Abbreviation async_loop := (astream_lines json_loads).

Lemma stream_lines_blank (line : pystr) (lines : list pystr) (failure : option exn) :
  strip line = [] -> sync_loop (line :: lines) failure = sync_loop lines failure.
Proof. intros H. cbn [stream_lines]. now rewrite H. Qed.

Lemma astream_lines_blank (line : pystr) (lines : list pystr) (failure : option exn) :
  strip line = [] -> async_loop (line :: lines) failure = async_loop lines failure.
Proof. intros H. cbn [astream_lines]. now rewrite H. Qed.

Lemma stream_lines_event (line : pystr) (ev : JValue) (lines : list pystr)
    (failure : option exn) :
  str_truthy (strip line) = true -> parse line = Return (Some ev) ->
  sync_loop (line :: lines) failure = yield ev (sync_loop lines failure).
Proof. intros Hb Hp. cbn [stream_lines]. now rewrite Hb, Hp. Qed.

Lemma astream_lines_error_event (line : pystr) (content : JValue) (lines : list pystr)
    (failure : option exn) :
  str_truthy (strip line) = true -> parse line = Return (Some (error_event content)) ->
  async_loop (line :: lines) failure =
  yield (error_event content) (async_loop lines failure).
Proof. intros Hb Hp. cbn [astream_lines]. now rewrite Hb, Hp. Qed.

(** *** C2 *)

(** C2 (amended). For every non-empty line other than the termination
    token whose payload [json.loads] rejects with a [JSONDecodeError],
    [_parse_stream_line] returns the error event whose content is
    ["Failed to parse response: "] followed by the text of that exception
    (the decoder's message, with the position of the error), not the raw
    line.  The result is not [None]: when the line is not blank, [stream]
    and [astream] yield the event and go on with the lines that follow. *)
Theorem parse_stream_line_decode_failure (line : pystr) (e : exn) :
  line <> [] -> line <> py "[DONE]" ->
  json_loads (data line) = Raise e ->
  isinstance e JSONDecodeError = true ->
  let ev := JObject
              [ (py "type", JString (py "error"));
                (py "content", JString (py "Failed to parse response: " ++ exn_str e)) ] in
  parse line = Return (Some ev) /\
  (forall lines failure,
     str_truthy (strip line) = true ->
     sync_loop (line :: lines) failure =
       {| yielded := ev :: yielded (sync_loop lines failure);
          ending := ending (sync_loop lines failure) |} /\
     async_loop (line :: lines) failure =
       {| yielded := ev :: yielded (async_loop lines failure);
          ending := ending (async_loop lines failure) |}).
Proof.
  intros Hne Hdone Hloads Hcls ev.
  assert (E : parse line = Return (Some ev)).
  { rewrite (parse_decodes json_loads line Hne Hdone). unfold decode. rewrite Hloads.
    cbn [bind try_except]. exact (handle_decode_error e Hcls). }
  split; [exact E|]. intros lines failure Hb. split.
  - exact (stream_lines_event line ev lines failure Hb E).
  - exact (astream_lines_error_event line
             (JString (py "Failed to parse response: " ++ exn_str e)) lines failure Hb E).
Qed.

(** *** C3 *)

(** C3 (amended). A line that is empty or made of white space only is
    skipped by the loops of [stream] and [astream], which test
    [line.strip()] themselves: the line is not decoded and the stream goes
    on.  [_parse_stream_line] does not trim: it returns [None] for the
    empty line, and hands a non-empty line of white space to [json.loads]
    as it is. *)
Theorem blank_line_skipped (line : pystr) (lines : list pystr) (failure : option exn) :
  strip line = [] ->
  sync_loop (line :: lines) failure = sync_loop lines failure /\
  async_loop (line :: lines) failure = async_loop lines failure /\
  (line = [] -> parse line = Return None) /\
  (line <> [] -> parse line = decode json_loads line).
Proof.
  intros H. split; [now apply stream_lines_blank|].
  split; [now apply astream_lines_blank|]. split.
  - now intros ->.
  - intros Hne. destruct (blank_line_shape line H) as [Hdone Hprefix].
    rewrite parse_decodes; [|exact Hne|].
    + unfold data. now rewrite Hprefix.
    + intros E. rewrite E in Hdone. discriminate.
Qed.

(** *** C1 *)

Lemma open_stream_fails (req : Request) (loop : list pystr -> option exn -> run)
    (e : exn) :
  fails_before_first_line (httpx_stream req) e ->
  open_stream httpx_stream req loop = raising e.
Proof.
  unfold open_stream. intros [H | [response [H Hs]]]; rewrite H; [reflexivity|].
  now rewrite Hs.
Qed.

(** C1 (amended). When the request of [stream] fails before the first
    line with an [httpx.HTTPError] [e] (the connection fails or the status
    check raises), [stream] yields nothing and raises an
    [AgentClientError], which is [AgentClientError("Error: " + str(e))]
    when an agent is selected.  When the request of [astream] fails in
    that way, [astream] does not raise, with or without an agent selected:
    it yields the single event [{"type": "error", "content": "Connection
    error: " + str(e)}] and ends normally. *)
Theorem stream_failure_before_first_line :
  (forall (c : AgentClient) (message : pystr) (model thread_id : option pystr)
          (stream_tokens : bool) (e : exn),
     isinstance e HTTPError = true ->
     fails_before_first_line
       (httpx_stream (stream_request c message model thread_id stream_tokens)) e ->
     raised_not_yielded
       (stream json_loads httpx_stream c message model thread_id stream_tokens) /\
     (opt_truthy (agent c) = true ->
      stream json_loads httpx_stream c message model thread_id stream_tokens =
        {| yielded := [];
           ending := Some (Exn AgentClientError (py "Error: " ++ exn_str e)) |})) /\
  (forall (c : AgentClient) (amessage : JValue) (e : exn),
     isinstance e HTTPError = true ->
     fails_before_first_line (httpx_stream (astream_request c amessage)) e ->
     astream json_loads httpx_stream c amessage =
       {| yielded := [ JObject
                         [ (py "type", JString (py "error"));
                           (py "content",
                            JString (py "Connection error: " ++ exn_str e)) ] ];
          ending := None |}).
Proof.
  split.
  - intros c message model thread_id stream_tokens e He Hfail.
    assert (E : opt_truthy (agent c) = true ->
                stream json_loads httpx_stream c message model thread_id stream_tokens =
                {| yielded := [];
                   ending := Some (Exn AgentClientError (py "Error: " ++ exn_str e)) |}).
    { intros Hagent. unfold stream. rewrite Hagent. cbn [negb].
      rewrite (open_stream_fails _ _ e Hfail).
      unfold gen_try_except, raising. cbn [ending yielded gen_handle].
      now rewrite He. }
    split; [|exact E].
    destruct (opt_truthy (agent c)) eqn:Hagent.
    + rewrite (E eq_refl). split; [reflexivity|]. eexists. reflexivity.
    + unfold stream. rewrite Hagent. split; [reflexivity|]. eexists. reflexivity.
  - intros c amessage e He Hfail.
    unfold astream. rewrite (open_stream_fails _ _ e Hfail).
    unfold gen_try_except, raising. cbn [ending yielded gen_handle].
    now rewrite He.
Qed.

End Streaming.

(** ** Agent selection *)

Section Selection.

Variable httpx_get : Request -> result Response.

Lemma set_agent_same (c : AgentClient) (k : pystr) :
  agent c = Some k -> set_agent c k = c.
Proof. destruct c as [u s t i a]. cbn. now intros ->. Qed.

(** *** C4 *)

(** C4 (amended). [update_agent(key, verify=True)] on a client whose
    metadata is loaded and does not list [key] sends no request, leaves the
    client as it is and raises [AgentClientError] with the message
    ["Agent {key} not found in available agents: {keys}"], where the keys
    are joined with [", "] in the order of the metadata; they are not
    sorted.  The message contains the requested key and that list. *)
Theorem update_agent_unknown (c : AgentClient) (md : ServiceMetadata) (k : pystr) :
  info c = Some md ->
  str_in k (map key (agents md)) = false ->
  let keys := join (py ", ") (map key (agents md)) in
  let msg := py "Agent " ++ k ++ py " not found in available agents: " ++ keys in
  update_agent httpx_get c k true =
    {| sent := []; self_after := c; outcome := Raise (Exn AgentClientError msg) |} /\
  contains msg k = true /\ contains msg keys = true.
Proof.
  intros Hinfo Hin keys msg. split; [|split].
  - unfold update_agent. rewrite Hinfo. cbn [outcome self_after sent].
    rewrite Hinfo, Hin. reflexivity.
  - apply contains_app_mid.
  - unfold msg.
    replace (py "Agent " ++ k ++ py " not found in available agents: " ++ keys)
      with ((py "Agent " ++ k ++ py " not found in available agents: ") ++ keys ++ [])
      by (now rewrite app_nil_r, <- !app_assoc).
    apply contains_app_mid.
Qed.

(** *** C8 *)

(** C8. Selecting again the agent that is already selected, with
    [verify=True] and the agent among the keys of the loaded metadata,
    does not raise, sends no request and leaves the client -- its selected
    agent and its metadata -- as it was. *)
Theorem update_agent_idempotent (c : AgentClient) (md : ServiceMetadata) (k : pystr) :
  info c = Some md ->
  agent c = Some k ->
  str_in k (map key (agents md)) = true ->
  update_agent httpx_get c k true =
    {| sent := []; self_after := c; outcome := Return tt |}.
Proof.
  intros Hinfo Hagent Hin. unfold update_agent. rewrite Hinfo.
  cbn [outcome self_after sent]. rewrite Hinfo, Hin. cbn [negb].
  now rewrite (set_agent_same c k Hagent).
Qed.

(** *** C10 *)

(** C10. [update_agent(key, verify=False)] succeeds for every key: it
    sends no request, checks nothing, selects [key] and leaves the metadata
    as it was.  The key need not be one of the metadata, so the call can
    take a client that satisfies the membership invariant to one that does
    not. *)
Theorem update_agent_unverified :
  (forall c k,
     update_agent httpx_get c k false =
       {| sent := []; self_after := set_agent c k; outcome := Return tt |} /\
     agent (set_agent c k) = Some k /\
     info (set_agent c k) = info c) /\
  (exists c k,
     selected_agent_known c = true /\
     str_in k (map key (match info c with Some md => agents md | None => [] end)) = false /\
     selected_agent_known (self_after (update_agent httpx_get c k false)) = false).
Proof.
  split.
  - intros c k. repeat split.
  - exists (client_of metadata_ab (py "a")), (py "ghost").
    repeat split.
Qed.

End Selection.

(** ** Closed instances

    The statements below run the client on concrete lines with the decoder
    [Json.loads]. *)

(** The worked examples of the specification. *)

Example decode_error_payload :
  _parse_stream_line Json.loads (jpy "data: {'type':'error','content':'boom'}") =
  Return (Some (error_event (JString (py "boom")))).
Proof. vm_compute. reflexivity. Qed.

Example decode_error_without_content :
  _parse_stream_line Json.loads (jpy "{'type':'error'}") =
  Return (Some (error_event (JString (py "Unknown error")))).
Proof. vm_compute. reflexivity. Qed.

Example decode_token_payload :
  _parse_stream_line Json.loads (jpy "data: {'type':'token','content':'hi'}") =
  Return (Some (token "hi")).
Proof. vm_compute. reflexivity. Qed.

Example stream_two_tokens :
  stream Json.loads
    (streaming [ jpy "data: {'type':'token','content':'a'}"; [];
                 jpy "data: {'type':'token','content':'b'}"; py "[DONE]" ])
    (client_of metadata_ab (py "a")) (py "hello") None None true =
  {| yielded := [token "a"; token "b"]; ending := None |}.
Proof. vm_compute. reflexivity. Qed.

(** [astream] does not stop at the termination token: it skips it. *)
Example astream_reads_past_done :
  astream Json.loads
    (streaming [ jpy "data: {'type':'token','content':'a'}"; py "[DONE]";
                 jpy "data: {'type':'token','content':'b'}" ])
    (client_of metadata_ab (py "a")) (JString (py "hello")) =
  {| yielded := [token "a"; token "b"]; ending := None |}.
Proof. vm_compute. reflexivity. Qed.

(** *** C1 *)

Lemma stream_failure_before_first_line_witness :
  stream Json.loads refused_stream (client_of metadata_ab (py "a")) (py "hi") None None true =
    {| yielded := [];
       ending := Some (Exn AgentClientError
                         (py "Error: [Errno 111] Connection refused")) |} /\
  astream Json.loads refused_stream fresh_client (JString (py "hi")) =
    {| yielded := [ JObject
                      [ (py "type", JString (py "error"));
                        (py "content",
                         JString (py "Connection error: [Errno 111] Connection refused")) ] ];
       ending := None |}.
Proof.
  split.
  - apply (proj2 (proj1 (stream_failure_before_first_line Json.loads refused_stream)
                    (client_of metadata_ab (py "a")) (py "hi") None None true
                    connect_error eq_refl (or_introl eq_refl))).
    reflexivity.
  - apply (proj2 (stream_failure_before_first_line Json.loads refused_stream)
             fresh_client (JString (py "hi")) connect_error eq_refl (or_introl eq_refl)).
Defined.

(** C1, as stated, fails for [astream]: a refused connection is not raised
    as an [AgentClientError] but yielded as an event. *)
Lemma astream_yields_connection_failure :
  ~ raised_not_yielded
      (astream Json.loads refused_stream (client_of metadata_ab (py "a"))
         (JString (py "hi"))).
Proof. intros [H _]. vm_compute in H. discriminate H. Qed.

(** *** C2 *)

Lemma parse_stream_line_decode_failure_witness :
  _parse_stream_line Json.loads (py "data: not-json") =
  Return (Some (JObject
    [ (py "type", JString (py "error"));
      (py "content", JString
         (py "Failed to parse response: Expecting value: line 1 column 1 (char 0)")) ])).
Proof.
  apply (parse_stream_line_decode_failure Json.loads (py "data: not-json")
           (Exn JSONDecodeError (py "Expecting value: line 1 column 1 (char 0)")));
    [discriminate | discriminate | reflexivity | reflexivity].
Defined.

(** C2, as stated, fails: the content of the error event for
    ["data: not-json"] holds neither the payload nor the line. *)
Lemma decode_failure_content_omits_raw_text :
  exists content,
    _parse_stream_line Json.loads (py "data: not-json") =
      Return (Some (JObject [ (py "type", JString (py "error"));
                              (py "content", JString content) ])) /\
    content = py "Failed to parse response: Expecting value: line 1 column 1 (char 0)" /\
    contains content (py "not-json") = false /\
    contains content (py "data: not-json") = false.
Proof.
  exists (py "Failed to parse response: Expecting value: line 1 column 1 (char 0)").
  repeat split; vm_compute; reflexivity.
Qed.

(** *** C3 *)

Lemma blank_line_skipped_witness :
  strip (py "   ") = [] /\
  stream_lines Json.loads [py "   "; jpy "data: {'type':'token','content':'a'}"] None =
  stream_lines Json.loads [jpy "data: {'type':'token','content':'a'}"] None.
Proof.
  split; [reflexivity|].
  apply (blank_line_skipped Json.loads (py "   ")
           [jpy "data: {'type':'token','content':'a'}"] None).
  reflexivity.
Defined.

(** C3, as stated, fails: the decoder does not trim, and a line of three
    spaces gets an error event, not [None]. *)
Lemma parse_stream_line_spaces :
  _parse_stream_line Json.loads (py "   ") =
    Return (Some (error_event (JString
      (py "Failed to parse response: Expecting value: line 1 column 4 (char 3)")))) /\
  _parse_stream_line Json.loads (py "   ") <> Return None.
Proof. split; [vm_compute; reflexivity | vm_compute; discriminate]. Qed.

(** *** C4 *)

Lemma update_agent_unknown_witness :
  outcome (update_agent refused_get (client_of metadata_ab (py "a")) (py "ghost") true) =
    Raise (Exn AgentClientError
             (py "Agent ghost not found in available agents: a, b")).
Proof.
  exact (f_equal outcome
           (proj1 (update_agent_unknown refused_get (client_of metadata_ab (py "a"))
                     metadata_ab (py "ghost") eq_refl eq_refl))).
Defined.

(** C4, as stated, fails: for the agents [b] and [a], listed in that order,
    the message gives the keys as ["b, a"], not sorted. *)
Lemma update_agent_keys_not_sorted :
  outcome (update_agent refused_get (client_of metadata_ba (py "a")) (py "ghost") true) =
    Raise (Exn AgentClientError
             (py "Agent ghost not found in available agents: b, a")) /\
  contains (py "Agent ghost not found in available agents: b, a") (py "a, b") = false.
Proof. split; vm_compute; reflexivity. Qed.

(** *** C5 *)

Lemma parse_stream_line_total_witness :
  parse_body Json.loads (py "data: 5") =
    Raise (Exn AttributeError (py "'int' object has no attribute 'get'")) /\
  _parse_stream_line Json.loads (py "data: 5") =
    Return (Some (JObject
      [ (py "type", JString (py "error"));
        (py "content", JString
           (py "Unexpected error: 'int' object has no attribute 'get'")) ])).
Proof.
  split; [reflexivity|].
  apply (proj1 (proj2 (parse_stream_line_total Json.loads (py "data: 5")))
           (Exn AttributeError (py "'int' object has no attribute 'get'")));
    reflexivity.
Defined.

(** *** C6 *)

(** C6, as stated, fails: the decoder returns the same value for the
    termination token and for the empty line, so no flag read from its
    result tells the one that stops from the one that is skipped. *)
Lemma no_terminal_flag :
  ~ exists terminal : result (option JValue) -> bool,
      terminal (_parse_stream_line Json.loads (py "[DONE]")) = true /\
      terminal (_parse_stream_line Json.loads []) = false.
Proof.
  intros [terminal [H1 H2]].
  rewrite parse_done in H1. rewrite parse_empty in H2. congruence.
Qed.

(** *** C7 *)

Lemma parse_stream_line_payload_witness :
  _parse_stream_line Json.loads (jpy "data: {'type':'token','content':'hi'}") =
  decode Json.loads (jpy "{'type':'token','content':'hi'}").
Proof.
  apply (parse_stream_line_payload Json.loads
           (jpy "data: {'type':'token','content':'hi'}"));
    discriminate.
Defined.

(** C7, as stated, fails: the payload is the line as received, not the
    trimmed line.  After a no-break space, which [strip()] removes and
    JSON does not allow, the object [{}] is an error for the decoder and
    would be passed through if the line were trimmed; after a space, the
    position in the error message counts the space. *)
Lemma payload_is_not_trimmed :
  (strip (160%N :: py "{}") = py "{}" /\
   _parse_stream_line Json.loads (160%N :: py "{}") =
     Return (Some (error_event (JString
       (py "Failed to parse response: Expecting value: line 1 column 1 (char 0)")))) /\
   decode Json.loads (strip (160%N :: py "{}")) = Return (Some (JObject []))) /\
  (_parse_stream_line Json.loads (py " x") =
     Return (Some (error_event (JString
       (py "Failed to parse response: Expecting value: line 1 column 2 (char 1)")))) /\
   decode Json.loads (strip (py " x")) =
     Return (Some (error_event (JString
       (py "Failed to parse response: Expecting value: line 1 column 1 (char 0)"))))).
Proof. repeat split; vm_compute; reflexivity. Qed.

(** *** C8 *)

Lemma update_agent_idempotent_witness :
  update_agent refused_get (client_of metadata_ab (py "a")) (py "a") true =
  {| sent := []; self_after := client_of metadata_ab (py "a"); outcome := Return tt |}.
Proof.
  apply (update_agent_idempotent refused_get (client_of metadata_ab (py "a"))
           metadata_ab (py "a")); reflexivity.
Defined.

(** *** C9 *)

Lemma parse_stream_line_non_object_witness :
  _parse_stream_line Json.loads (py "[1]") =
  Return (Some (JObject
    [ (py "type", JString (py "error"));
      (py "content", JString
         (py "Unexpected error: 'list' object has no attribute 'get'")) ])).
Proof.
  apply (parse_stream_line_non_object Json.loads (py "[1]") (JArray [JInt 1]));
    [discriminate | discriminate | reflexivity | reflexivity].
Defined.

(** ** Further properties of the line decoder *)

Section DecoderMore.

Variable json_loads : pystr -> result JValue.

Local Abbreviation parse := (_parse_stream_line json_loads).

Lemma handle_is_error_event (e : exn) :
  exists content, handle e parse_clauses = Return (Some (error_event content)).
Proof.
  destruct (isinstance e JSONDecodeError) eqn:E.
  - eexists. now apply handle_decode_error.
  - eexists. now apply handle_unexpected.
Qed.

Lemma eq_str_true (v : JValue) (s : pystr) : eq_str v s = true -> v = JString s.
Proof.
  destruct v; simpl; try discriminate. intros H. apply str_eqb_eq in H. now subst.
Qed.

Lemma inspect_object (d : dict) :
  inspect (JObject d) =
  Return (Some (if type_is_error d
                then error_event (match dict_get d (py "content") with
                                  | Some content => content
                                  | None => JString (py "Unknown error")
                                  end)
                else JObject d)).
Proof.
  unfold inspect, type_is_error. cbn [get bind].
  destruct (dict_get d (py "type")) as [ty|]; [|reflexivity].
  destruct (eq_str ty (py "error")); reflexivity.
Qed.

Lemma decode_object (payload : pystr) (d : dict) :
  json_loads payload = Return (JObject d) ->
  decode json_loads payload = inspect (JObject d).
Proof.
  intros H. unfold decode. rewrite H. cbn [bind].
  rewrite inspect_object. reflexivity.
Qed.

(** Every answer of the decoder other than [None] is a dictionary. *)
Lemma decode_is_dict (payload : pystr) (ev : JValue) :
  decode json_loads payload = Return (Some ev) -> is_dict ev = true.
Proof.
  unfold decode. destruct (json_loads payload) as [v|e]; cbn [bind try_except].
  - destruct (is_dict v) eqn:E.
    + destruct v; try discriminate. rewrite inspect_object.
      cbn [try_except]. intros H. injection H as <-.
      now destruct (type_is_error d).
    + rewrite (inspect_not_dict v E). cbn [try_except].
      destruct (handle_is_error_event
                  (Exn AttributeError
                     (py "'" ++ type_name v ++ py "' object has no attribute 'get'")))
        as [content ->].
      intros H. now injection H as <-.
  - destruct (handle_is_error_event e) as [content ->].
    intros H. now injection H as <-.
Qed.

Lemma parse_is_dict (line : pystr) (ev : JValue) :
  parse line = Return (Some ev) -> is_dict ev = true.
Proof.
  intros H. destruct line as [|c line]; [discriminate|].
  destruct (str_eqb (c :: line) (py "[DONE]")) eqn:E.
  - apply str_eqb_eq in E. rewrite E in H. discriminate.
  - rewrite parse_decodes in H.
    + now apply decode_is_dict in H.
    + discriminate.
    + intros Heq. rewrite Heq, str_eqb_refl in E. discriminate.
Qed.

(** The decoder answers [None] or an event; it does not raise. *)
Lemma parse_cases (line : pystr) :
  parse line = Return None \/ exists ev, parse line = Return (Some ev).
Proof.
  destruct line as [|c line]; [now left|].
  destruct (str_eqb (c :: line) (py "[DONE]")) eqn:E.
  - left. apply str_eqb_eq in E. now rewrite E.
  - right. apply parse_event; [discriminate|].
    intros Heq. rewrite Heq, str_eqb_refl in E. discriminate.
Qed.

(** X1. Whatever [json.loads] returns or raises, an event returned by
    [_parse_stream_line] is a dictionary: a list, a string, a number or
    [null] never comes out of the decoder. *)
Theorem parse_stream_line_returns_dict (line : pystr) (ev : JValue) :
  parse line = Return (Some ev) -> is_dict ev = true.
Proof. apply parse_is_dict. Qed.

(** X2. When the payload of a line is an object whose ["type"] is the
    string ["error"], the decoder does not return the object: it returns a
    new dictionary with the two entries ["type"] and ["content"], where the
    content is the one of the payload -- whatever its value, [null]
    included -- or ["Unknown error"] when the payload has none; every other
    entry of the payload is dropped. *)
Theorem parse_stream_line_error_payload (line : pystr) (d : dict) :
  line <> [] -> line <> py "[DONE]" ->
  json_loads (data line) = Return (JObject d) ->
  type_is_error d = true ->
  parse line =
  Return (Some (JObject
    [ (py "type", JString (py "error"));
      (py "content", match dict_get d (py "content") with
                     | Some content => content
                     | None => JString (py "Unknown error")
                     end) ])).
Proof.
  intros Hne Hdone Hloads Herr.
  rewrite (parse_decodes json_loads line Hne Hdone).
  rewrite (decode_object _ d Hloads), inspect_object, Herr. reflexivity.
Qed.

(** X3. When the payload of a line is an object whose ["type"] is missing
    or is anything but the string ["error"], the decoder returns the object
    as [json.loads] gave it, with all its entries. *)
Theorem parse_stream_line_passthrough (line : pystr) (d : dict) :
  line <> [] -> line <> py "[DONE]" ->
  json_loads (data line) = Return (JObject d) ->
  type_is_error d = false ->
  parse line = Return (Some (JObject d)).
Proof.
  intros Hne Hdone Hloads Herr.
  rewrite (parse_decodes json_loads line Hne Hdone).
  rewrite (decode_object _ d Hloads), inspect_object, Herr. reflexivity.
Qed.

End DecoderMore.

(** ** Further properties of the streaming loops *)

Section StreamingMore.

Variable json_loads : pystr -> result JValue.
Variable httpx_stream : Request -> result StreamResponse.

Local Abbreviation parse := (_parse_stream_line json_loads).
Local Abbreviation sync_loop := (stream_lines json_loads).
Local Abbreviation async_loop := (astream_lines json_loads).

Lemma nonblank_not_empty (line : pystr) : nonblank line = true -> line <> [].
Proof. intros H ->. discriminate. Qed.

Lemma is_done_iff (line : pystr) : is_done line = true <-> line = py "[DONE]".
Proof. apply str_eqb_eq. Qed.

Lemma done_is_nonblank : nonblank (py "[DONE]") = true.
Proof. reflexivity. Qed.

Lemma blank_not_done (line : pystr) : nonblank line = false -> is_done line = false.
Proof.
  intros H. destruct (is_done line) eqn:E; [|reflexivity].
  apply is_done_iff in E. subst. discriminate.
Qed.

(** One step of the loop of [stream], by the kind of the line. *)
Lemma stream_lines_step (line : pystr) (lines : list pystr) (failure : option exn) :
  (nonblank line = false /\
   sync_loop (line :: lines) failure = sync_loop lines failure) \/
  (nonblank line = true /\ is_done line = true /\
   sync_loop (line :: lines) failure = finished) \/
  (nonblank line = true /\ is_done line = false /\
   exists ev, parse line = Return (Some ev) /\
     sync_loop (line :: lines) failure = yield ev (sync_loop lines failure)).
Proof.
  destruct (nonblank line) eqn:Hb.
  - right. destruct (is_done line) eqn:Hd.
    + left. repeat split. apply is_done_iff in Hd. subst. reflexivity.
    + right. repeat split.
      assert (Hne : line <> py "[DONE]").
      { intros E. apply is_done_iff in E. congruence. }
      destruct (parse_event json_loads line (nonblank_not_empty line Hb) Hne) as [ev Hev].
      exists ev. split; [exact Hev|]. now apply stream_lines_event.
  - left. split; [reflexivity|]. cbn [stream_lines].
    unfold nonblank in Hb. now rewrite Hb.
Qed.

Lemma stream_lines_yielded (lines : list pystr) (failure : option exn) :
  yielded (sync_loop lines failure) =
  decoded_events json_loads (until_done (filter nonblank lines)).
Proof.
  induction lines as [|line lines IH]; [reflexivity|].
  destruct (stream_lines_step line lines failure)
    as [[Hb E] | [[Hb [Hd E]] | [Hb [Hd [ev [Hev E]]]]]]; rewrite E; cbn [filter];
    rewrite Hb.
  - exact IH.
  - cbn [until_done]. now rewrite Hd.
  - cbn [until_done]. rewrite Hd. unfold decoded_events. cbn [flat_map].
    rewrite Hev. cbn [yield yielded app]. f_equal. exact IH.
Qed.

Lemma stream_lines_ending (lines : list pystr) (failure : option exn) :
  ending (sync_loop lines failure) = if existsb is_done lines then None else failure.
Proof.
  induction lines as [|line lines IH]; [reflexivity|].
  destruct (stream_lines_step line lines failure)
    as [[Hb E] | [[Hb [Hd E]] | [Hb [Hd [ev [Hev E]]]]]]; rewrite E; cbn [existsb].
  - rewrite (blank_not_done line Hb). exact IH.
  - now rewrite Hd.
  - rewrite Hd. exact IH.
Qed.

Lemma decoded_events_length (lines : list pystr) :
  Forall (fun line => nonblank line = true /\ is_done line = false) lines ->
  List.length (decoded_events json_loads lines) = List.length lines.
Proof.
  induction 1 as [|line lines [Hb Hd] _ IH]; [reflexivity|].
  unfold decoded_events. cbn [flat_map].
  assert (Hne : line <> py "[DONE]").
  { intros E. apply is_done_iff in E. congruence. }
  destruct (parse_event json_loads line (nonblank_not_empty line Hb) Hne) as [ev ->].
  cbn [app List.length]. f_equal. exact IH.
Qed.

Lemma until_done_nonblank (lines : list pystr) :
  Forall (fun line => nonblank line = true /\ is_done line = false)
    (until_done (filter nonblank lines)).
Proof.
  induction lines as [|line lines IH]; [constructor|].
  cbn [filter]. destruct (nonblank line) eqn:Hb; [|exact IH].
  cbn [until_done]. destruct (is_done line) eqn:Hd; [constructor|].
  constructor; [now split | exact IH].
Qed.

Lemma decoded_events_dicts (lines : list pystr) :
  Forall (fun ev => is_dict ev = true) (decoded_events json_loads lines).
Proof.
  induction lines as [|line lines IH]; [constructor|].
  unfold decoded_events. cbn [flat_map].
  destruct (parse line) as [[ev|]|e] eqn:E; cbn [app]; try exact IH.
  constructor; [now apply (parse_is_dict json_loads line) | exact IH].
Qed.

(** What the [except] clause of [stream] makes of the body. *)
Lemma stream_of_body (c : AgentClient) (message : pystr) (model thread_id : option pystr)
    (stream_tokens : bool) :
  opt_truthy (agent c) = true ->
  let body := open_stream httpx_stream
                (stream_request c message model thread_id stream_tokens) sync_loop in
  yielded (stream json_loads httpx_stream c message model thread_id stream_tokens) =
    yielded body /\
  ending (stream json_loads httpx_stream c message model thread_id stream_tokens) =
    match ending body with
    | None => None
    | Some e =>
        Some (if isinstance e HTTPError
              then Exn AgentClientError (py "Error: " ++ exn_str e)
              else e)
    end.
Proof.
  intros Hagent body. unfold stream. rewrite Hagent. cbn [negb].
  fold body. unfold gen_try_except.
  destruct (ending body) as [e|] eqn:E; [|now rewrite E].
  cbn [gen_handle]. destruct (isinstance e HTTPError); cbn [raising yielded ending];
    now rewrite app_nil_r.
Qed.

Lemma open_stream_ok (req : Request) (loop : list pystr -> option exn -> run)
    (response : StreamResponse) :
  httpx_stream req = Return response ->
  stream_raise_for_status response = Return tt ->
  open_stream httpx_stream req loop = loop (iter_lines response) (iter_failure response).
Proof. intros H Hs. unfold open_stream. now rewrite H, Hs. Qed.

(** The body of a streaming call yields what its loop yields, if
    anything. *)
Lemma open_stream_yielded (req : Request) (loop : list pystr -> option exn -> run)
    (P : JValue -> Prop) :
  (forall lines failure, Forall P (yielded (loop lines failure))) ->
  Forall P (yielded (open_stream httpx_stream req loop)).
Proof.
  intros H. unfold open_stream.
  destruct (httpx_stream req) as [response|e]; [|constructor].
  destruct (stream_raise_for_status response); [apply H | constructor].
Qed.

(** *** X4 *)

(** X4. With an agent selected and a response whose status check passes,
    [stream] yields exactly the decoded events of the non-blank lines that
    come before the first ["[DONE]"], one event for each such line and in
    their order, whether the response then ends, breaks or goes on. *)
Theorem stream_yields_until_done (c : AgentClient) (message : pystr)
    (model thread_id : option pystr) (stream_tokens : bool) (response : StreamResponse) :
  opt_truthy (agent c) = true ->
  httpx_stream (stream_request c message model thread_id stream_tokens) = Return response ->
  stream_raise_for_status response = Return tt ->
  let r := stream json_loads httpx_stream c message model thread_id stream_tokens in
  let decoded := until_done (filter nonblank (iter_lines response)) in
  yielded r = decoded_events json_loads decoded /\
  List.length (yielded r) = List.length decoded.
Proof.
  intros Hagent Hreq Hstatus r decoded.
  destruct (stream_of_body c message model thread_id stream_tokens Hagent) as [Hy _].
  assert (E : yielded r = decoded_events json_loads decoded).
  { unfold r. rewrite Hy, (open_stream_ok _ _ response Hreq Hstatus).
    apply stream_lines_yielded. }
  split; [exact E|]. rewrite E.
  apply decoded_events_length, until_done_nonblank.
Qed.

(** *** X5 *)

(** X5. With an agent selected and a response whose status check passes,
    [stream] ends normally when a line is ["[DONE]"], even if the line
    iterator would fail after it; without such a line it ends as the line
    iterator does, an [httpx.HTTPError] being raised as
    [AgentClientError("Error: " + str(e))] after the events of the lines
    read before it, and any other exception unchanged. *)
Theorem stream_ending (c : AgentClient) (message : pystr)
    (model thread_id : option pystr) (stream_tokens : bool) (response : StreamResponse) :
  opt_truthy (agent c) = true ->
  httpx_stream (stream_request c message model thread_id stream_tokens) = Return response ->
  stream_raise_for_status response = Return tt ->
  ending (stream json_loads httpx_stream c message model thread_id stream_tokens) =
  if existsb is_done (iter_lines response) then None
  else match iter_failure response with
       | None => None
       | Some e =>
           Some (if isinstance e HTTPError
                 then Exn AgentClientError (py "Error: " ++ exn_str e)
                 else e)
       end.
Proof.
  intros Hagent Hreq Hstatus.
  destruct (stream_of_body c message model thread_id stream_tokens Hagent) as [_ He].
  rewrite He, (open_stream_ok _ _ response Hreq Hstatus), stream_lines_ending.
  now destruct (existsb is_done (iter_lines response)).
Qed.

(** *** X6 *)

(** X6. [stream] never raises an [httpx.HTTPError]: whatever the client,
    the arguments, the decoder and the transport, the exception that ends
    the iteration, if there is one, is not an instance of it. *)
Theorem stream_never_raises_http_error (c : AgentClient) (message : pystr)
    (model thread_id : option pystr) (stream_tokens : bool) (e : exn) :
  ending (stream json_loads httpx_stream c message model thread_id stream_tokens) = Some e ->
  isinstance e HTTPError = false.
Proof.
  destruct (opt_truthy (agent c)) eqn:Hagent.
  - destruct (stream_of_body c message model thread_id stream_tokens Hagent) as [_ He].
    rewrite He. destruct (ending (open_stream _ _ _)) as [e0|]; [|discriminate].
    destruct (isinstance e0 HTTPError) eqn:E; intros H; injection H as <-;
      [reflexivity | exact E].
  - unfold stream. rewrite Hagent. cbn. intros H. now injection H as <-.
Qed.

(** *** X7 *)

(** X7. Every value [stream] yields is a dictionary, whatever the lines
    hold and whatever [json.loads] makes of them. *)
Theorem stream_yields_dicts (c : AgentClient) (message : pystr)
    (model thread_id : option pystr) (stream_tokens : bool) :
  Forall (fun ev => is_dict ev = true)
    (yielded (stream json_loads httpx_stream c message model thread_id stream_tokens)).
Proof.
  destruct (opt_truthy (agent c)) eqn:Hagent.
  - destruct (stream_of_body c message model thread_id stream_tokens Hagent) as [Hy _].
    rewrite Hy. apply open_stream_yielded. intros lines failure.
    rewrite stream_lines_yielded. apply decoded_events_dicts.
  - unfold stream. rewrite Hagent. constructor.
Qed.

(** *** C6 *)

Lemma until_done_no_done (lines : list pystr) :
  existsb is_done lines = false -> until_done lines = lines.
Proof.
  induction lines as [|line lines IH]; [reflexivity|]. cbn [existsb until_done].
  intros H. apply orb_false_iff in H as [Hd H]. rewrite Hd. f_equal. now apply IH.
Qed.

Lemma until_done_app_done (pre post : list pystr) :
  existsb is_done pre = false -> until_done (pre ++ py "[DONE]" :: post) = pre.
Proof.
  induction pre as [|line pre IH]; [reflexivity|]. cbn [existsb app until_done].
  intros H. apply orb_false_iff in H as [Hd H]. rewrite Hd. f_equal. now apply IH.
Qed.

Lemma existsb_filter_done (lines : list pystr) :
  existsb is_done lines = false -> existsb is_done (filter nonblank lines) = false.
Proof.
  induction lines as [|line lines IH]; [reflexivity|]. cbn [existsb filter].
  intros H. apply orb_false_iff in H as [Hd H].
  destruct (nonblank line); [|now apply IH].
  cbn [existsb]. rewrite Hd. now apply IH.
Qed.

(** The decoded events of lines that are neither blank nor the token are
    the events of the lines, one for each. *)
Lemma decoded_events_each (lines : list pystr) :
  Forall (fun line => nonblank line = true /\ is_done line = false) lines ->
  Forall2 (fun line ev => parse line = Return (Some ev))
    lines (decoded_events json_loads lines).
Proof.
  induction 1 as [|line lines [Hb Hd] _ IH]; [constructor|].
  unfold decoded_events. cbn [flat_map].
  assert (Hne : line <> py "[DONE]").
  { intros E. apply is_done_iff in E. congruence. }
  destruct (parse_event json_loads line (nonblank_not_empty line Hb) Hne) as [ev Hev].
  rewrite Hev. cbn [app]. constructor; [exact Hev | exact IH].
Qed.

Lemma filter_nonblank_each (lines : list pystr) :
  existsb is_done lines = false ->
  Forall (fun line => nonblank line = true /\ is_done line = false)
    (filter nonblank lines).
Proof.
  intros H. rewrite <- (until_done_no_done (filter nonblank lines)).
  - apply until_done_nonblank.
  - now apply existsb_filter_done.
Qed.

(** C6 (amended). [_parse_stream_line] returns [None] for ["[DONE]"], and
    [None] is all it returns: it has no second component, and the empty
    line gets the same answer, while every other line gets an event.
    [stream] stops at the first non-blank line for which the decoder
    answers [None]; as it never decodes a blank line, it stops at a line
    exactly when the line is ["[DONE]"]: it yields, in their order, the
    event of every non-blank line that comes before the first ["[DONE]"],
    ends there normally and yields nothing from the lines after it; when
    no line is ["[DONE]"] it yields the event of every non-blank line and
    ends as the line iterator does. *)
Theorem done_ends_stream :
  parse (py "[DONE]") = Return None /\
  (forall line, parse line = Return None <-> line = [] \/ line = py "[DONE]") /\
  (forall line, line <> [] -> line <> py "[DONE]" ->
     exists ev, parse line = Return (Some ev)) /\
  (forall lines failure,
     sync_loop (py "[DONE]" :: lines) failure = {| yielded := []; ending := None |}) /\
  (forall line lines failure,
     str_truthy (strip line) = true ->
     (sync_loop (line :: lines) failure = {| yielded := []; ending := None |}
      <-> line = py "[DONE]")) /\
  (forall pre post failure,
     existsb is_done pre = false ->
     Forall2 (fun line ev => parse line = Return (Some ev))
       (filter nonblank pre)
       (yielded (sync_loop (pre ++ py "[DONE]" :: post) failure)) /\
     ending (sync_loop (pre ++ py "[DONE]" :: post) failure) = None) /\
  (forall lines failure,
     existsb is_done lines = false ->
     Forall2 (fun line ev => parse line = Return (Some ev))
       (filter nonblank lines) (yielded (sync_loop lines failure)) /\
     ending (sync_loop lines failure) = failure).
Proof.
  split; [reflexivity|]. split; [apply parse_none_iff|].
  split; [apply parse_event|]. split; [reflexivity|]. split; [|split].
  - intros line lines failure Hb. split.
    + intros H. destruct (str_eqb line (py "[DONE]")) eqn:E; [now apply str_eqb_eq|].
      assert (Hdone : line <> py "[DONE]").
      { intros Heq. rewrite Heq, str_eqb_refl in E. discriminate. }
      destruct (parse_event json_loads line (truthy_strip_nonempty line Hb) Hdone)
        as [ev Hev].
      rewrite (stream_lines_event json_loads line ev lines failure Hb Hev) in H.
      discriminate.
    + intros ->. reflexivity.
  - intros pre post failure Hpre. split.
    + rewrite stream_lines_yielded, filter_app. cbn [filter].
      rewrite done_is_nonblank.
      rewrite (until_done_app_done _ _ (existsb_filter_done pre Hpre)).
      apply decoded_events_each. now apply filter_nonblank_each.
    + rewrite stream_lines_ending, existsb_app. cbn [existsb].
      rewrite Hpre. reflexivity.
  - intros lines failure Hlines. split.
    + rewrite stream_lines_yielded.
      rewrite (until_done_no_done _ (existsb_filter_done lines Hlines)).
      apply decoded_events_each. now apply filter_nonblank_each.
    + rewrite stream_lines_ending. now rewrite Hlines.
Qed.

End StreamingMore.

(** ** Further properties of [astream] *)

Section AstreamMore.

Variable json_loads : pystr -> result JValue.
Variable httpx_stream : Request -> result StreamResponse.

Local Abbreviation parse := (_parse_stream_line json_loads).
Local Abbreviation sync_loop := (stream_lines json_loads).
Local Abbreviation async_loop := (astream_lines json_loads).

Lemma error_event_has_type (content : JValue) : has_type (error_event content).
Proof. eexists. reflexivity. Qed.

Lemma astream_lines_has_type (lines : list pystr) (failure : option exn) :
  Forall has_type (yielded (async_loop lines failure)).
Proof.
  induction lines as [|line lines IH]; [constructor|].
  cbn [astream_lines].
  destruct (negb (str_truthy (strip line))); [exact IH|].
  destruct (parse line) as [[ev|]|e]; [|exact IH|constructor].
  destruct (truthy ev); [|exact IH].
  destruct (getitem ev (py "type")) as [ty|e] eqn:E; [|constructor].
  destruct (eq_str ty (py "error")); constructor; solve [now exists ty | exact IH].
Qed.

(** A line the loop of [astream] passes over: it is blank, or the decoder
    answers [None] or an empty dictionary for it. *)
Lemma astream_lines_skip (line : pystr) (lines : list pystr) (failure : option exn) :
  line = py "[DONE]" \/ json_loads (data line) = Return (JObject []) ->
  async_loop (line :: lines) failure = async_loop lines failure.
Proof.
  intros H. cbn [astream_lines].
  destruct (str_truthy (strip line)) eqn:Hb; [|reflexivity]. cbn [negb].
  destruct H as [-> | H]; [reflexivity|].
  destruct (str_eqb line (py "[DONE]")) eqn:Hd.
  - apply str_eqb_eq in Hd. subst. reflexivity.
  - rewrite parse_decodes.
    + now rewrite (decode_object json_loads _ [] H).
    + intros ->. discriminate.
    + intros E. rewrite E, str_eqb_refl in Hd. discriminate.
Qed.

(** The loop treats the lines one by one: what follows a line does not
    change what the loop does with it. *)
Lemma astream_lines_app (pre lines lines' : list pystr) (failure : option exn) :
  async_loop lines failure = async_loop lines' failure ->
  async_loop (pre ++ lines) failure = async_loop (pre ++ lines') failure.
Proof.
  intros H. induction pre as [|line pre IH]; [exact H|].
  cbn [app astream_lines]. now rewrite IH.
Qed.

Lemma astream_of_body (c : AgentClient) (message : JValue) :
  let body := open_stream httpx_stream (astream_request c message) async_loop in
  astream json_loads httpx_stream c message =
  match ending body with
  | None => body
  | Some e =>
      {| yielded :=
           yielded body ++
           [error_event (JString ((if isinstance e HTTPError
                                   then py "Connection error: "
                                   else py "Stream error: ") ++ exn_str e))];
         ending := None |}
  end.
Proof.
  intros body. unfold astream. fold body. unfold gen_try_except.
  destruct (ending body) as [e|]; [|reflexivity].
  cbn [gen_handle]. destruct (isinstance e HTTPError); [reflexivity|].
  now rewrite isinstance_Exception.
Qed.

(** *** X8 *)

(** X8. [astream] turns every failure that is an instance of [Exception]
    into a last yielded event and then ends normally, keeping the events
    it yielded before: the event is [{"type": "error", "content":
    "Connection error: " + str(e)}] for an [httpx.HTTPError] and
    [{"type": "error", "content": "Stream error: " + str(e)}] for any other
    exception, whether the failure is the one of the request, of the status
    check, of the line iterator or of the loop.  Without a failure it
    yields what its loop yields. *)
Theorem astream_turns_failures_into_events (c : AgentClient) (message : JValue) :
  let failure_event (e : exn) :=
    JObject [ (py "type", JString (py "error"));
              (py "content",
               JString ((if isinstance e HTTPError
                         then py "Connection error: "
                         else py "Stream error: ") ++ exn_str e)) ] in
  (forall e,
     fails_before_first_line (httpx_stream (astream_request c message)) e ->
     isinstance e Exception = true ->
     astream json_loads httpx_stream c message =
       {| yielded := [failure_event e]; ending := None |}) /\
  (forall response,
     httpx_stream (astream_request c message) = Return response ->
     stream_raise_for_status response = Return tt ->
     let r := async_loop (iter_lines response) (iter_failure response) in
     (ending r = None -> astream json_loads httpx_stream c message = r) /\
     (forall e, ending r = Some e -> isinstance e Exception = true ->
        astream json_loads httpx_stream c message =
          {| yielded := yielded r ++ [failure_event e]; ending := None |})).
Proof.
  intros failure_event. split.
  - intros e Hfail _. rewrite astream_of_body.
    rewrite (open_stream_fails httpx_stream _ _ e Hfail). reflexivity.
  - intros response Hreq Hstatus r. rewrite astream_of_body.
    rewrite (open_stream_ok httpx_stream _ _ response Hreq Hstatus). fold r. split.
    + intros E. now rewrite E.
    + intros e E _. now rewrite E.
Qed.

(** *** X9 *)

(** X9. Every value [astream] yields is a dictionary with a ["type"]
    entry: the events of the lines, which the loop reads it from before it
    yields them, and the error events the [except] clauses make. *)
Theorem astream_yields_typed_events (c : AgentClient) (message : JValue) :
  Forall has_type (yielded (astream json_loads httpx_stream c message)).
Proof.
  rewrite astream_of_body.
  assert (H : Forall has_type
                (yielded (open_stream httpx_stream (astream_request c message) async_loop))).
  { apply open_stream_yielded. apply astream_lines_has_type. }
  destruct (ending (open_stream _ _ _)) as [e|]; [|exact H].
  cbn [yielded]. apply Forall_app. split; [exact H|].
  constructor; [apply error_event_has_type | constructor].
Qed.

(** *** X10 *)

(** X10. [astream] uses nothing of the client but its base URL: the
    selected agent, the metadata, the credential and the timeout have no
    effect on the request or on the result, and no agent needs to be
    selected. *)
Theorem astream_uses_base_url_only (c c' : AgentClient) (message : JValue) :
  base_url c = base_url c' ->
  astream_request c message = astream_request c' message /\
  astream json_loads httpx_stream c message = astream json_loads httpx_stream c' message.
Proof.
  intros H. assert (E : astream_request c message = astream_request c' message).
  { unfold astream_request. now rewrite H. }
  split; [exact E|]. unfold astream. now rewrite E.
Qed.

(** *** X11 *)

(** X11. A line whose payload is a non-empty object without a ["type"]
    entry ends [astream]: reading [parsed["type"]] raises [KeyError], the
    loop stops, and the iteration yields the event
    ["Stream error: 'type'"] instead of the object; the lines that follow
    are not read.  [stream] yields the same object and goes on. *)
Theorem astream_stops_at_untyped_event (c : AgentClient) (message : JValue)
    (response : StreamResponse) (line : pystr) (lines : list pystr) (d : dict) :
  httpx_stream (astream_request c message) = Return response ->
  stream_raise_for_status response = Return tt ->
  iter_lines response = line :: lines ->
  nonblank line = true -> line <> py "[DONE]" ->
  json_loads (data line) = Return (JObject d) ->
  d <> [] -> dict_get d (py "type") = None ->
  astream json_loads httpx_stream c message =
    {| yielded := [ JObject [ (py "type", JString (py "error"));
                              (py "content", JString (py "Stream error: 'type'")) ] ];
       ending := None |} /\
  forall failure,
    sync_loop (line :: lines) failure =
    {| yielded := JObject d :: yielded (sync_loop lines failure);
       ending := ending (sync_loop lines failure) |}.
Proof.
  intros Hreq Hstatus Hlines Hb Hdone Hloads Hd Hty.
  assert (Hp : parse line = Return (Some (JObject d))).
  { rewrite (parse_decodes json_loads line (nonblank_not_empty line Hb) Hdone).
    rewrite (decode_object json_loads _ d Hloads), inspect_object.
    unfold type_is_error. now rewrite Hty. }
  split.
  - rewrite astream_of_body, (open_stream_ok httpx_stream _ _ response Hreq Hstatus).
    rewrite Hlines. cbn [astream_lines]. unfold nonblank in Hb. rewrite Hb, Hp.
    cbn [negb truthy]. destruct d as [|kv d]; [contradiction|].
    cbn [getitem]. rewrite Hty. reflexivity.
  - intros failure.
    exact (stream_lines_event json_loads line (JObject d) lines failure Hb Hp).
Qed.

(** *** X12 *)

(** X12. [astream] does not stop at ["[DONE]"]: its loop passes over the
    line, as it passes over a line whose payload is the empty object, and
    reads the lines that follow as if the line were not there. *)
Theorem astream_lines_pass_over (pre post : list pystr) (line : pystr)
    (failure : option exn) :
  line = py "[DONE]" \/ json_loads (data line) = Return (JObject []) ->
  async_loop (pre ++ line :: post) failure = async_loop (pre ++ post) failure.
Proof.
  intros H. apply astream_lines_app. now apply astream_lines_skip.
Qed.

End AstreamMore.

(** ** Further properties of the agent selection *)

Section SelectionMore.

Variable httpx_get : Request -> result Response.

Local Abbreviation fetch := (retrieve_info httpx_get).
Local Abbreviation select := (update_agent httpx_get).

Lemma set_info_same (c : AgentClient) (md : ServiceMetadata) :
  info c = Some md -> set_info c md = c.
Proof. destruct c as [u s t i a]. cbn. now intros ->. Qed.

Lemma retrieve_info_fails (c : AgentClient) (e : exn) :
  get_fails (httpx_get (info_request c)) e ->
  fetch c =
  {| sent := [info_request c]; self_after := c;
     outcome := Raise (Exn AgentClientError
       (if isinstance e ConnectError
        then py "Error connecting to agent service: Connection refused"
        else py "Error getting service info: " ++ exn_str e)) |}.
Proof.
  intros H. unfold retrieve_info.
  assert (E : (response <- httpx_get (info_request c) ;;
               _ <- raise_for_status response ;; Return response) = Raise e).
  { destruct H as [H | [response [H Hs]]]; rewrite H; cbn [bind]; [reflexivity|].
    now rewrite Hs. }
  rewrite E. cbn [try_except handle].
  destruct (isinstance e ConnectError); [reflexivity|].
  destruct (isinstance e HTTPError); [reflexivity|].
  now rewrite isinstance_Exception.
Qed.

Lemma retrieve_info_ok (c : AgentClient) (response : Response) (md : ServiceMetadata) :
  httpx_get (info_request c) = Return response ->
  raise_for_status response = Return tt ->
  validated_json response = Return md ->
  fetch c =
  {| sent := [info_request c];
     self_after := set_agent (set_info c md) (kept_or_default (agent c) md);
     outcome := Return tt |}.
Proof.
  intros H Hs Hv. unfold retrieve_info. rewrite H. cbn [bind]. rewrite Hs.
  cbn [bind try_except]. rewrite Hv. f_equal.
  unfold kept_or_default. cbn [agent set_info opt_truthy].
  destruct (agent c) as [a|] eqn:Ha; cbn [opt_truthy negb orb]; [|reflexivity].
  destruct (str_truthy a); cbn [negb orb andb]; [|reflexivity].
  destruct (str_in a (map key (agents md))); cbn [negb]; [|reflexivity].
  symmetry. apply set_agent_same. exact Ha.
Qed.

(** The ways [retrieve_info] ends. *)
Lemma retrieve_info_cases (c : AgentClient) :
  (exists e, get_fails (httpx_get (info_request c)) e) \/
  (exists response e,
     httpx_get (info_request c) = Return response /\
     raise_for_status response = Return tt /\
     validated_json response = Raise e /\
     fetch c = {| sent := [info_request c]; self_after := c; outcome := Raise e |}) \/
  (exists response md,
     httpx_get (info_request c) = Return response /\
     raise_for_status response = Return tt /\
     validated_json response = Return md).
Proof.
  destruct (httpx_get (info_request c)) as [response|e] eqn:H.
  - destruct (raise_for_status response) as [[]|e] eqn:Hs.
    + destruct (validated_json response) as [md|e] eqn:Hv.
      * right. right. now exists response, md.
      * right. left. exists response, e. repeat split; try assumption.
        unfold retrieve_info. rewrite H. cbn [bind]. rewrite Hs.
        cbn [bind try_except]. now rewrite Hv.
    + left. exists e. right. now exists response.
  - left. exists e. now left.
Qed.

Lemma retrieve_info_sent (c : AgentClient) : sent (fetch c) = [info_request c].
Proof.
  destruct (retrieve_info_cases c)
    as [[e H] | [[response [e [_ [_ [_ E]]]]] | [response [md [H [Hs Hv]]]]]].
  - now rewrite (retrieve_info_fails c e H).
  - now rewrite E.
  - now rewrite (retrieve_info_ok c response md H Hs Hv).
Qed.

Lemma retrieve_info_success (c : AgentClient) :
  outcome (fetch c) = Return tt ->
  exists response md,
    httpx_get (info_request c) = Return response /\
    raise_for_status response = Return tt /\
    validated_json response = Return md.
Proof.
  intros Hout.
  destruct (retrieve_info_cases c)
    as [[e H] | [[response [e [_ [_ [_ E]]]]] | H]].
  - rewrite (retrieve_info_fails c e H) in Hout. discriminate.
  - rewrite E in Hout. discriminate.
  - exact H.
Qed.

Lemma kept_or_default_known (selected : option pystr) (md : ServiceMetadata) :
  let a := kept_or_default selected md in
  str_in (default_agent md) (map key (agents md)) = true ->
  str_in a (map key (agents md)) = true.
Proof.
  intros a Hd. unfold a, kept_or_default. destruct selected as [s|]; [|exact Hd].
  destruct (str_truthy s); cbn [andb]; [|exact Hd].
  destruct (str_in s (map key (agents md))) eqn:E; [exact E | exact Hd].
Qed.

Lemma kept_or_default_again (selected : option pystr) (md : ServiceMetadata) :
  kept_or_default (Some (kept_or_default selected md)) md = kept_or_default selected md.
Proof.
  unfold kept_or_default at 1.
  destruct (str_truthy (kept_or_default selected md) &&
            str_in (kept_or_default selected md) (map key (agents md))) eqn:E;
    [reflexivity|].
  unfold kept_or_default in *. destruct selected as [s|]; [|reflexivity].
  destruct (str_truthy s && str_in s (map key (agents md))) eqn:Es; [|reflexivity].
  congruence.
Qed.

(** The ways a verified [update_agent] ends on a client, once the
    metadata it checks against are known. *)
Lemma update_agent_checked (c c1 : AgentClient) (requests : list Request)
    (md : ServiceMetadata) (k : pystr) :
  (match info c with
   | None => fetch c
   | Some _ => {| sent := []; self_after := c; outcome := Return tt |}
   end) = {| sent := requests; self_after := c1; outcome := Return tt |} ->
  info c1 = Some md ->
  select c k true =
  if str_in k (map key (agents md))
  then {| sent := requests; self_after := set_agent c1 k; outcome := Return tt |}
  else {| sent := requests; self_after := c1;
          outcome := Raise (Exn AgentClientError
            (py "Agent " ++ k ++ py " not found in available agents: "
             ++ join (py ", ") (map key (agents md)))) |}.
Proof.
  intros Hloaded Hinfo. unfold update_agent. rewrite Hloaded.
  cbn [outcome self_after sent]. rewrite Hinfo.
  now destruct (str_in k (map key (agents md))).
Qed.

Lemma update_agent_verified_success (c : AgentClient) (k : pystr) :
  outcome (select c k true) = Return tt ->
  agent (self_after (select c k true)) = Some k /\
  exists md, info (self_after (select c k true)) = Some md /\
             str_in k (map key (agents md)) = true.
Proof.
  unfold update_agent.
  set (loaded := match info c with
                 | None => fetch c
                 | Some _ => {| sent := []; self_after := c; outcome := Return tt |}
                 end).
  destruct (outcome loaded) as [[]|e] eqn:Hl.
  - destruct (info (self_after loaded)) as [md|] eqn:Hi; [|discriminate].
    destruct (str_in k (map key (agents md))) eqn:Hin; cbn [negb outcome self_after];
      [|discriminate].
    intros _. split; [reflexivity|]. exists md. now split.
  - intros H. rewrite Hl in H. discriminate.
Qed.

Lemma update_agent_loaded (c : AgentClient) (md : ServiceMetadata) (k : pystr)
    (verify : bool) :
  info c = Some md ->
  sent (select c k verify) = [] /\ info (self_after (select c k verify)) = Some md.
Proof.
  intros Hinfo. destruct verify.
  - rewrite (update_agent_checked c c [] md k); [|now rewrite Hinfo | exact Hinfo].
    destruct (str_in k (map key (agents md))); now split.
  - now split.
Qed.

(** *** X13 *)

(** X13. When the [GET /info] request or its status check raises,
    [retrieve_info] sends that one request, leaves the client as it was and
    raises [AgentClientError], whatever the class of the exception.  For a
    [ConnectError] the message is the fixed text ["Error connecting to
    agent service: Connection refused"], without the text of the
    exception; for every other exception it is ["Error getting service
    info: "] followed by that text. *)
Theorem retrieve_info_failure (c : AgentClient) (e : exn) :
  get_fails (httpx_get (info_request c)) e ->
  fetch c =
  {| sent := [info_request c]; self_after := c;
     outcome := Raise (Exn AgentClientError
       (if isinstance e ConnectError
        then py "Error connecting to agent service: Connection refused"
        else py "Error getting service info: " ++ exn_str e)) |}.
Proof. apply retrieve_info_fails. Qed.

(** *** X14 *)

(** X14. When the service answers with valid metadata, [retrieve_info]
    stores them and keeps the selected agent if it is not empty and is one
    of their keys; otherwise it selects their default agent.  The base
    URL, the credential and the timeout are unchanged, and the client
    satisfies the membership invariant whenever the default agent is one of
    the keys. *)
Theorem retrieve_info_selects (c : AgentClient) (response : Response)
    (md : ServiceMetadata) :
  httpx_get (info_request c) = Return response ->
  raise_for_status response = Return tt ->
  validated_json response = Return md ->
  let c' := self_after (fetch c) in
  outcome (fetch c) = Return tt /\
  info c' = Some md /\
  agent c' = Some (kept_or_default (agent c) md) /\
  (base_url c' = base_url c /\ auth_secret c' = auth_secret c /\ timeout c' = timeout c) /\
  (str_in (default_agent md) (map key (agents md)) = true ->
   selected_agent_known c' = true).
Proof.
  intros H Hs Hv c'. unfold c'. rewrite (retrieve_info_ok c response md H Hs Hv).
  cbn [outcome self_after]. repeat split.
  intros Hd. unfold selected_agent_known. cbn [agent info set_agent set_info].
  rewrite (kept_or_default_known (agent c) md Hd). apply orb_true_r.
Qed.

(** *** X15 *)

(** X15. [retrieve_info] is idempotent: after a call that succeeded, a
    second call to a service that answers the same sends the same request
    and leaves the client exactly as the first call left it. *)
Theorem retrieve_info_idempotent (c : AgentClient) :
  outcome (fetch c) = Return tt ->
  fetch (self_after (fetch c)) = fetch c.
Proof.
  intros Hout.
  destruct (retrieve_info_success c Hout) as [response [md [H [Hs Hv]]]].
  rewrite (retrieve_info_ok c response md H Hs Hv). cbn [self_after].
  set (c' := set_agent (set_info c md) (kept_or_default (agent c) md)).
  assert (Hreq : info_request c' = info_request c) by reflexivity.
  rewrite (retrieve_info_ok c' response md); [|now rewrite Hreq|exact Hs|exact Hv].
  rewrite Hreq. f_equal.
  cbn [agent c' set_agent]. rewrite kept_or_default_again.
  rewrite (set_info_same c' md eq_refl). apply set_agent_same. reflexivity.
Qed.

(** *** X16 *)

(** X16. Whenever [update_agent(key, verify=True)] returns normally --
    with the metadata it had or with metadata it has just fetched -- the
    client has metadata, [key] is one of their keys and [key] is the
    selected agent. *)
Theorem update_agent_verified_postcondition (c : AgentClient) (k : pystr) :
  outcome (select c k true) = Return tt ->
  agent (self_after (select c k true)) = Some k /\
  exists md, info (self_after (select c k true)) = Some md /\
             str_in k (map key (agents md)) = true.
Proof. apply update_agent_verified_success. Qed.

(** *** X17 *)

(** X17. A verified [update_agent] on a client without metadata fetches
    them first, and the fetch stays done when the key is then refused: the
    call raises the unknown-agent error, yet the client now holds the
    metadata and the agent [retrieve_info] selected -- the agent it had if
    that one is listed, the default agent of the service otherwise. *)
Theorem update_agent_refusal_keeps_fetch (c : AgentClient) (response : Response)
    (md : ServiceMetadata) (k : pystr) :
  info c = None ->
  httpx_get (info_request c) = Return response ->
  raise_for_status response = Return tt ->
  validated_json response = Return md ->
  str_in k (map key (agents md)) = false ->
  select c k true =
  {| sent := [info_request c];
     self_after := set_agent (set_info c md) (kept_or_default (agent c) md);
     outcome := Raise (Exn AgentClientError
       (py "Agent " ++ k ++ py " not found in available agents: "
        ++ join (py ", ") (map key (agents md)))) |}.
Proof.
  intros Hinfo H Hs Hv Hin.
  rewrite (update_agent_checked c
             (set_agent (set_info c md) (kept_or_default (agent c) md))
             [info_request c] md k).
  - now rewrite Hin.
  - rewrite Hinfo. now apply retrieve_info_ok with (response := response).
  - reflexivity.
Qed.

(** *** X18 *)

(** X18. A verified [update_agent] on a client without metadata whose
    fetch fails ends as [retrieve_info] does: it raises the
    [AgentClientError] of the fetch, and the client -- its selected agent
    included -- is as it was. *)
Theorem update_agent_fetch_failure (c : AgentClient) (k : pystr) (e : exn) :
  info c = None ->
  get_fails (httpx_get (info_request c)) e ->
  select c k true = fetch c /\
  self_after (select c k true) = c /\
  exists msg, outcome (select c k true) = Raise (Exn AgentClientError msg).
Proof.
  intros Hinfo Hfail.
  assert (E : select c k true = fetch c).
  { unfold update_agent. rewrite Hinfo.
    now rewrite (retrieve_info_fails c e Hfail). }
  rewrite E, (retrieve_info_fails c e Hfail). repeat split. eexists. reflexivity.
Qed.

(** *** X19 *)

Lemma update_agent_calls_loaded (c : AgentClient) (md : ServiceMetadata)
    (calls : list (pystr * bool)) :
  info c = Some md ->
  fst (update_agent_calls httpx_get c calls) = [] /\
  info (snd (update_agent_calls httpx_get c calls)) = Some md.
Proof.
  revert c. induction calls as [|[k verify] calls IH]; intros c Hinfo; [now split|].
  cbn [update_agent_calls].
  destruct (update_agent_loaded c md k verify Hinfo) as [Hsent Hafter].
  destruct (IH (self_after (select c k verify)) Hafter) as [H1 H2].
  destruct (update_agent_calls httpx_get (self_after (select c k verify)) calls)
    as [requests c'].
  cbn [fst snd] in *. rewrite Hsent, H1. now split.
Qed.

(** X19. The metadata are fetched once.  On a client that holds metadata,
    no sequence of [update_agent] calls -- verified or not, for whatever
    keys, succeeding or raising -- sends a request or changes the
    metadata; and a verified [update_agent] that returns normally leaves
    such a client, so that nothing is fetched in any of the calls that
    come after it. *)
Theorem update_agent_uses_cached_metadata :
  (forall (c : AgentClient) (md : ServiceMetadata) (calls : list (pystr * bool)),
     info c = Some md ->
     fst (update_agent_calls httpx_get c calls) = [] /\
     info (snd (update_agent_calls httpx_get c calls)) = Some md) /\
  (forall (c : AgentClient) (k : pystr) (calls : list (pystr * bool)),
     outcome (select c k true) = Return tt ->
     fst (update_agent_calls httpx_get (self_after (select c k true)) calls) = [] /\
     info (snd (update_agent_calls httpx_get (self_after (select c k true)) calls)) =
       info (self_after (select c k true))).
Proof.
  split; [apply update_agent_calls_loaded|].
  intros c k calls Hout.
  destruct (update_agent_verified_success c k Hout) as [_ [md [Hinfo _]]].
  rewrite Hinfo. now apply update_agent_calls_loaded.
Qed.

End SelectionMore.

(** ** The constructor and the one-shot requests *)

Section RequestsMore.

Variable json_loads : pystr -> result JValue.
Variable httpx_get : Request -> result Response.
Variable httpx_post : Request -> result PostResponse.
Variable httpx_stream : Request -> result StreamResponse.
Variable ChatMessage : Type.
Variable ChatHistory : Type.
Variable ChatMessage_model_validate : JValue -> result ChatMessage.
Variable ChatHistory_model_validate : JValue -> result ChatHistory.
Variable UserInput_model_dump : pystr -> field -> field -> JValue.
Variable ChatHistoryInput_model_dump : pystr -> JValue.
Variable Feedback_model_dump : pystr -> pystr -> pyfloat -> JValue -> JValue.

Local Abbreviation fetch := (retrieve_info httpx_get).
Local Abbreviation select := (update_agent httpx_get).
Local Abbreviation init := (__init__ httpx_get).
Local Abbreviation invoke' :=
  (invoke httpx_post ChatMessage ChatMessage_model_validate UserInput_model_dump).
Local Abbreviation ainvoke' :=
  (ainvoke httpx_post ChatMessage ChatMessage_model_validate UserInput_model_dump).
Local Abbreviation get_history' :=
  (get_history httpx_post ChatHistory ChatHistory_model_validate ChatHistoryInput_model_dump).
Local Abbreviation acreate_feedback' := (acreate_feedback httpx_post Feedback_model_dump).

Lemma update_agent_lazy_sent (c : AgentClient) (k : pystr) :
  info c = None -> sent (select c k true) = [info_request c].
Proof.
  intros Hinfo. unfold update_agent. rewrite Hinfo.
  pose proof (retrieve_info_sent httpx_get c) as Hs.
  destruct (outcome (fetch c)); [|exact Hs].
  destruct (info (self_after (fetch c))); [|exact Hs].
  now destruct (negb _).
Qed.

Lemma retrieve_info_keeps (c : AgentClient) :
  base_url (self_after (fetch c)) = base_url c /\
  auth_secret (self_after (fetch c)) = auth_secret c /\
  timeout (self_after (fetch c)) = timeout c.
Proof.
  destruct (retrieve_info_cases httpx_get c)
    as [[e H] | [[response [e [_ [_ [_ E]]]]] | [response [md [H [Hs Hv]]]]]].
  - now rewrite (retrieve_info_fails httpx_get c e H).
  - now rewrite E.
  - now rewrite (retrieve_info_ok httpx_get c response md H Hs Hv).
Qed.

Lemma update_agent_keeps (c : AgentClient) (k : pystr) (verify : bool) :
  base_url (self_after (select c k verify)) = base_url c /\
  auth_secret (self_after (select c k verify)) = auth_secret c /\
  timeout (self_after (select c k verify)) = timeout c.
Proof.
  destruct verify; [|now repeat split].
  unfold update_agent.
  set (loaded := match info c with
                 | None => fetch c
                 | Some _ => {| sent := []; self_after := c; outcome := Return tt |}
                 end).
  assert (H : base_url (self_after loaded) = base_url c /\
              auth_secret (self_after loaded) = auth_secret c /\
              timeout (self_after loaded) = timeout c).
  { unfold loaded. destruct (info c); [now repeat split | apply retrieve_info_keeps]. }
  destruct (outcome loaded); [|exact H].
  destruct (info (self_after loaded)); [|exact H].
  destruct (negb _); exact H.
Qed.

Lemma retrieve_info_loaded (c : AgentClient) :
  outcome (fetch c) = Return tt ->
  exists md, info (self_after (fetch c)) = Some md /\
             agent (self_after (fetch c)) = Some (kept_or_default (agent c) md).
Proof.
  intros Hout.
  destruct (retrieve_info_success httpx_get c Hout) as [response [md [H [Hs Hv]]]].
  rewrite (retrieve_info_ok httpx_get c response md H Hs Hv). now exists md.
Qed.

Lemma try_post_fails {A} (req : Request) (inside : PostResponse -> result A) (e : exn) :
  post_fails (httpx_post req) e ->
  try_post httpx_post req inside =
  Raise (if isinstance e HTTPError
         then Exn AgentClientError (py "Error: " ++ exn_str e)
         else e).
Proof.
  intros H. unfold try_post.
  assert (E : (response <- httpx_post req ;;
               _ <- post_raise_for_status response ;; inside response) = Raise e).
  { destruct H as [H | [response [H Hs]]]; rewrite H; cbn [bind]; [reflexivity|].
    now rewrite Hs. }
  rewrite E. cbn [try_except handle]. now destruct (isinstance e HTTPError).
Qed.

Lemma try_post_ok {A} (req : Request) (inside : PostResponse -> result A)
    (response : PostResponse) :
  httpx_post req = Return response ->
  post_raise_for_status response = Return tt ->
  try_post httpx_post req inside =
  match inside response with
  | Return a => Return a
  | Raise e => Raise (if isinstance e HTTPError
                      then Exn AgentClientError (py "Error: " ++ exn_str e)
                      else e)
  end.
Proof.
  intros H Hs. unfold try_post. rewrite H. cbn [bind]. rewrite Hs. cbn [bind].
  destruct (inside response) as [a|e]; [reflexivity|].
  cbn [try_except handle]. now destruct (isinstance e HTTPError).
Qed.

(** *** X20 *)

(** X20. The constructor sends at most one request, the [GET /info] of
    the client under construction: it sends it when [get_info] is set or
    an agent is given, and then only once -- the agent is checked against
    the metadata just fetched -- and sends nothing otherwise. *)
Theorem init_requests (env_auth_secret : option pystr) (url0 : pystr)
    (agent0 : option pystr) (timeout0 : option pyfloat) (get_info : bool) :
  sent (init env_auth_secret url0 agent0 timeout0 get_info) =
  if get_info || opt_truthy agent0
  then [info_request {| base_url := url0; auth_secret := env_auth_secret;
                        timeout := timeout0; info := None; agent := None |}]
  else [].
Proof.
  unfold __init__.
  set (c0 := {| base_url := url0; auth_secret := env_auth_secret;
                timeout := timeout0; info := None; agent := None |}).
  destruct get_info; cbn [orb].
  - pose proof (retrieve_info_sent httpx_get c0) as Hs.
    destruct (outcome (fetch c0)) as [[]|e] eqn:Hout; [|exact Hs].
    destruct agent0 as [a|]; [|exact Hs].
    destruct (str_truthy a); [|exact Hs].
    cbn [sent]. rewrite Hs.
    destruct (retrieve_info_loaded c0 Hout) as [md [Hinfo _]].
    now rewrite (proj1 (update_agent_loaded httpx_get _ md a true Hinfo)).
  - cbn [outcome self_after sent]. destruct agent0 as [a|]; [|reflexivity].
    cbn [opt_truthy]. destruct (str_truthy a); [|reflexivity].
    cbn [app]. now apply update_agent_lazy_sent.
Qed.

(** *** X21 *)

(** X21. When the constructor returns, the client has the base URL, the
    credential of the environment and the timeout it was given.  If an
    agent was given, it is the selected agent and a key of the metadata the
    client holds; if none was given and [get_info] is set, the client
    holds the metadata and their default agent is selected; if none was
    given and [get_info] is not set, the client has neither metadata nor
    agent. *)
Theorem init_postcondition (env_auth_secret : option pystr) (url0 : pystr)
    (agent0 : option pystr) (timeout0 : option pyfloat) (get_info : bool) :
  outcome (init env_auth_secret url0 agent0 timeout0 get_info) = Return tt ->
  let c := self_after (init env_auth_secret url0 agent0 timeout0 get_info) in
  (base_url c = url0 /\ auth_secret c = env_auth_secret /\ timeout c = timeout0) /\
  (forall a, agent0 = Some a -> str_truthy a = true ->
     agent c = Some a /\
     exists md, info c = Some md /\ str_in a (map key (agents md)) = true) /\
  (opt_truthy agent0 = false -> get_info = true ->
     exists md, info c = Some md /\ agent c = Some (default_agent md)) /\
  (opt_truthy agent0 = false -> get_info = false -> info c = None /\ agent c = None).
Proof.
  unfold __init__.
  set (c0 := {| base_url := url0; auth_secret := env_auth_secret;
                timeout := timeout0; info := None; agent := None |}).
  set (fetched := if get_info then fetch c0
                  else {| sent := []; self_after := c0; outcome := Return tt |}).
  assert (Hkeep : base_url (self_after fetched) = url0 /\
                  auth_secret (self_after fetched) = env_auth_secret /\
                  timeout (self_after fetched) = timeout0).
  { unfold fetched. destruct get_info; [apply (retrieve_info_keeps c0) | now repeat split]. }
  destruct (outcome fetched) as [[]|e] eqn:Hout; [|intros H; rewrite Hout in H; discriminate].
  assert (Hplain :
    opt_truthy agent0 = false ->
    (get_info = true ->
       exists md, info (self_after fetched) = Some md /\
                  agent (self_after fetched) = Some (default_agent md)) /\
    (get_info = false ->
       info (self_after fetched) = None /\ agent (self_after fetched) = None)).
  { intros _. unfold fetched in *. split; intros ->; [|now split].
    destruct (retrieve_info_loaded c0 Hout) as [md [Hi Ha]]. now exists md. }
  destruct agent0 as [a|].
  - destruct (str_truthy a) eqn:Ha.
    + cbn [outcome self_after]. intros Hup. split; [|split; [|split]].
      * destruct (update_agent_keeps (self_after fetched) a true) as [H1 [H2 H3]].
        destruct Hkeep as [K1 [K2 K3]]. repeat split; congruence.
      * intros a' E _. injection E as <-.
        now apply update_agent_verified_success.
      * cbn [opt_truthy]. congruence.
      * cbn [opt_truthy]. congruence.
    + intros _. split; [exact Hkeep|]. split; [|split].
      * intros a' E Ht. injection E as <-. congruence.
      * intros _. now apply Hplain.
      * intros _. now apply Hplain.
  - intros _. split; [exact Hkeep|]. split; [|split].
    + discriminate.
    + intros _. now apply Hplain.
    + intros _. now apply Hplain.
Qed.

(** *** X22 *)

(** X22. On a client whose agent is [None] or the empty string -- as
    [update_agent("", verify=False)] leaves it -- [stream], [invoke] and
    [ainvoke] fail with ["No agent selected. Use update_agent() to select
    an agent."], whatever the transport would answer; [invoke] and
    [ainvoke] hand no request to it. *)
Theorem no_agent_no_request (c : AgentClient) (message : pystr)
    (model thread_id : option pystr) (stream_tokens : bool) :
  opt_truthy (agent c) = false ->
  stream json_loads httpx_stream c message model thread_id stream_tokens =
    raising no_agent_selected /\
  invoke' c message model thread_id =
    {| requested := []; returned := Raise no_agent_selected |} /\
  ainvoke' c message model thread_id =
    {| requested := []; returned := Raise no_agent_selected |}.
Proof.
  intros H. unfold stream, invoke, ainvoke. now rewrite H.
Qed.

(** *** X23 *)

(** X23. With an agent selected, [invoke] and [ainvoke] each hand exactly
    one request to the transport, the [POST] of their payload to
    [{base_url}/{agent}/invoke], whatever the transport answers; when that
    request or its status check raises an [httpx.HTTPError] the method
    raises [AgentClientError("Error: " + str(e))], and when it raises
    anything else that exception comes out unchanged. *)
Theorem invoke_transport_failure (c : AgentClient) (message : pystr)
    (model thread_id : option pystr) :
  opt_truthy (agent c) = true ->
  let sync_request :=
    invoke_request c
      (UserInput_model_dump message (assign_if thread_id) (assign_if model)) in
  let async_request :=
    invoke_request c (UserInput_model_dump message (Given thread_id) (Given model)) in
  let normalized (e : exn) :=
    if isinstance e HTTPError
    then Exn AgentClientError (py "Error: " ++ exn_str e) else e in
  requested (invoke' c message model thread_id) = [sync_request] /\
  requested (ainvoke' c message model thread_id) = [async_request] /\
  (forall e, post_fails (httpx_post sync_request) e ->
     returned (invoke' c message model thread_id) = Raise (normalized e)) /\
  (forall e, post_fails (httpx_post async_request) e ->
     returned (ainvoke' c message model thread_id) = Raise (normalized e)).
Proof.
  intros Hagent sync_request async_request normalized.
  unfold invoke, ainvoke. rewrite Hagent. cbn [negb requested returned].
  fold sync_request async_request.
  split; [reflexivity|]. split; [reflexivity|]. split.
  - intros e He. now rewrite (try_post_fails _ _ e He).
  - intros e He. now rewrite (try_post_fails _ _ e He).
Qed.

(** *** X24 *)

(** X24. [invoke] and [ainvoke] differ in the payload they build and in
    nothing else: whenever the transport answers their two requests alike,
    they return the same message or raise the same exception, with or
    without an agent selected. *)
Theorem invoke_ainvoke_agree (c : AgentClient) (message : pystr)
    (model thread_id : option pystr) :
  httpx_post (invoke_request c
     (UserInput_model_dump message (assign_if thread_id) (assign_if model))) =
  httpx_post (invoke_request c
     (UserInput_model_dump message (Given thread_id) (Given model))) ->
  returned (invoke' c message model thread_id) =
  returned (ainvoke' c message model thread_id).
Proof.
  intros H. unfold invoke, ainvoke.
  destruct (negb (opt_truthy (agent c))); [reflexivity|].
  cbn [returned]. unfold try_post. now rewrite H.
Qed.

(** *** X25 *)

(** X25. [acreate_feedback] reads [response.json()] inside its [try]
    block and drops the value: when the response passes the status check
    the call returns [None] for every body that is JSON, and raises the
    exception of [json()] when it is not -- as [AgentClientError] if that
    exception is an [httpx.HTTPError], unchanged otherwise.  A failure of
    the request or of the status check is treated the same way. *)
Theorem acreate_feedback_outcome (c : AgentClient) (run_id key0 : pystr)
    (score : pyfloat) (kwargs : JValue) :
  let req := {| method := py "POST"; url := base_url c ++ py "/feedback";
                json := Some (Feedback_model_dump run_id key0 score kwargs);
                headers := _headers c; timeout_of := Timeout (timeout c) |} in
  let normalized e := if isinstance e HTTPError
                      then Exn AgentClientError (py "Error: " ++ exn_str e) else e in
  requested (acreate_feedback' c run_id key0 score kwargs) = [req] /\
  (forall e, post_fails (httpx_post req) e ->
     returned (acreate_feedback' c run_id key0 score kwargs) = Raise (normalized e)) /\
  (forall response,
     httpx_post req = Return response ->
     post_raise_for_status response = Return tt ->
     returned (acreate_feedback' c run_id key0 score kwargs) =
     match response_json response with
     | Return _ => Return tt
     | Raise e => Raise (normalized e)
     end).
Proof.
  intros req normalized. split; [reflexivity|]. split.
  - intros e He. unfold acreate_feedback. cbn [returned]. fold req.
    now rewrite (try_post_fails _ _ e He).
  - intros response H Hs. unfold acreate_feedback. cbn [returned]. fold req.
    rewrite (try_post_ok _ _ response H Hs).
    now destruct (response_json response).
Qed.

(** *** X26 *)

(** X26. [get_history] and [acreate_feedback] need no agent: what they
    send and what they return depends on the base URL, the credential and
    the timeout of the client only, not on its selected agent or its
    metadata. *)
Theorem history_and_feedback_ignore_agent (c c' : AgentClient) (thread_id : pystr)
    (run_id key0 : pystr) (score : pyfloat) (kwargs : JValue) :
  base_url c = base_url c' -> auth_secret c = auth_secret c' -> timeout c = timeout c' ->
  get_history' c thread_id = get_history' c' thread_id /\
  acreate_feedback' c run_id key0 score kwargs =
  acreate_feedback' c' run_id key0 score kwargs.
Proof.
  intros Hu Hs Ht. unfold get_history, acreate_feedback, _headers.
  now rewrite Hu, Hs, Ht.
Qed.

(** *** X27 *)

(** X27. [get_history] turns an [httpx.HTTPError] of the request or of its
    status check into [AgentClientError("Error: " + str(e))] and lets any
    other exception through; when the status check passes it returns what
    [ChatHistory.model_validate] makes of [response.json()], the exceptions
    of these two calls being raised as they are. *)
Theorem get_history_outcome (c : AgentClient) (thread_id : pystr) :
  let req := {| method := py "POST"; url := base_url c ++ py "/history";
                json := Some (ChatHistoryInput_model_dump thread_id);
                headers := _headers c; timeout_of := Timeout (timeout c) |} in
  requested (get_history' c thread_id) = [req] /\
  (forall e, post_fails (httpx_post req) e ->
     returned (get_history' c thread_id) =
     Raise (if isinstance e HTTPError
            then Exn AgentClientError (py "Error: " ++ exn_str e) else e)) /\
  (forall response,
     httpx_post req = Return response ->
     post_raise_for_status response = Return tt ->
     returned (get_history' c thread_id) =
     match response_json response with
     | Return body => ChatHistory_model_validate body
     | Raise e => Raise e
     end).
Proof.
  intros req. split; [reflexivity|]. split.
  - intros e He. unfold get_history. cbn [returned]. fold req.
    now rewrite (try_post_fails _ _ e He).
  - intros response H Hs. unfold get_history. cbn [returned]. fold req.
    rewrite (try_post_ok _ _ response H Hs). cbn [bind].
    now destruct (response_json response).
Qed.

End RequestsMore.

(** ** Closed instances of the further properties *)

Lemma parse_stream_line_returns_dict_witness :
  is_dict (JObject [(py "a", JInt 1)]) = true.
Proof.
  apply (parse_stream_line_returns_dict Json.loads (jpy "data: {'a':1}")).
  reflexivity.
Defined.

Lemma parse_stream_line_error_payload_witness :
  _parse_stream_line Json.loads (jpy "data: {'type':'error','detail':'x','code':7}") =
  Return (Some (JObject [ (py "type", JString (py "error"));
                          (py "content", JString (py "Unknown error")) ])).
Proof.
  apply (parse_stream_line_error_payload Json.loads
           (jpy "data: {'type':'error','detail':'x','code':7}")
           [ (py "type", JString (py "error")); (py "detail", JString (py "x"));
             (py "code", JInt 7) ]);
    [discriminate | discriminate | reflexivity | reflexivity].
Defined.

Lemma parse_stream_line_passthrough_witness :
  _parse_stream_line Json.loads (jpy "{'type':['error'],'content':null}") =
  Return (Some (JObject [ (py "type", JArray [JString (py "error")]);
                          (py "content", JNull) ])).
Proof.
  apply (parse_stream_line_passthrough Json.loads
           (jpy "{'type':['error'],'content':null}"));
    [discriminate | discriminate | reflexivity | reflexivity].
Defined.

Lemma stream_yields_until_done_witness :
  yielded (stream Json.loads
             (streaming [ jpy "data: {'type':'token','content':'a'}"; py "  ";
                          py "oops"; py "[DONE]";
                          jpy "data: {'type':'token','content':'late'}" ])
             (client_of metadata_ab (py "a")) (py "hello") None None true) =
  decoded_events Json.loads [jpy "data: {'type':'token','content':'a'}"; py "oops"].
Proof.
  apply (stream_yields_until_done Json.loads
           (streaming [ jpy "data: {'type':'token','content':'a'}"; py "  ";
                        py "oops"; py "[DONE]";
                        jpy "data: {'type':'token','content':'late'}" ])
           (client_of metadata_ab (py "a")) (py "hello") None None true
           {| stream_raise_for_status := Return tt;
              iter_lines := [ jpy "data: {'type':'token','content':'a'}"; py "  ";
                              py "oops"; py "[DONE]";
                              jpy "data: {'type':'token','content':'late'}" ];
              iter_failure := None |});
    reflexivity.
Defined.

Lemma stream_ending_witness :
  ending (stream Json.loads
            (breaking [jpy "data: {'type':'token','content':'a'}"] read_error)
            (client_of metadata_ab (py "a")) (py "hello") None None true) =
  Some (Exn AgentClientError (py "Error: peer closed connection")).
Proof.
  apply (stream_ending Json.loads
           (breaking [jpy "data: {'type':'token','content':'a'}"] read_error)
           (client_of metadata_ab (py "a")) (py "hello") None None true
           {| stream_raise_for_status := Return tt;
              iter_lines := [jpy "data: {'type':'token','content':'a'}"];
              iter_failure := Some read_error |});
    reflexivity.
Defined.

Lemma stream_never_raises_http_error_witness :
  isinstance (Exn AgentClientError (py "Error: peer closed connection")) HTTPError = false.
Proof.
  apply (stream_never_raises_http_error Json.loads
           (breaking [jpy "data: {'type':'token','content':'a'}"] read_error)
           (client_of metadata_ab (py "a")) (py "hello") None None true).
  reflexivity.
Defined.

Lemma astream_uses_base_url_only_witness :
  astream Json.loads (streaming [jpy "{'type':'token','content':'a'}"])
    (client_of metadata_ab (py "a")) (JString (py "hello")) =
  astream Json.loads (streaming [jpy "{'type':'token','content':'a'}"])
    fresh_client (JString (py "hello")).
Proof.
  apply (astream_uses_base_url_only Json.loads
           (streaming [jpy "{'type':'token','content':'a'}"])
           (client_of metadata_ab (py "a")) fresh_client (JString (py "hello"))).
  reflexivity.
Defined.

Lemma astream_turns_failures_into_events_witness :
  astream Json.loads
    (breaking [jpy "data: {'type':'token','content':'a'}"] read_error)
    fresh_client (JString (py "hello")) =
  {| yielded := [ token "a";
                  JObject [ (py "type", JString (py "error"));
                            (py "content",
                             JString (py "Connection error: peer closed connection")) ] ];
     ending := None |}.
Proof.
  apply (proj2 (proj2 (astream_turns_failures_into_events Json.loads
                         (breaking [jpy "data: {'type':'token','content':'a'}"] read_error)
                         fresh_client (JString (py "hello")))
                  {| stream_raise_for_status := Return tt;
                     iter_lines := [jpy "data: {'type':'token','content':'a'}"];
                     iter_failure := Some read_error |} eq_refl eq_refl)
           read_error); reflexivity.
Defined.

Lemma astream_stops_at_untyped_event_witness :
  astream Json.loads
    (streaming [jpy "data: {'content':'a'}"; jpy "data: {'type':'token','content':'b'}"])
    fresh_client (JString (py "hello")) =
  {| yielded := [ JObject [ (py "type", JString (py "error"));
                            (py "content", JString (py "Stream error: 'type'")) ] ];
     ending := None |}.
Proof.
  apply (astream_stops_at_untyped_event Json.loads
           (streaming [ jpy "data: {'content':'a'}";
                        jpy "data: {'type':'token','content':'b'}" ])
           fresh_client (JString (py "hello"))
           {| stream_raise_for_status := Return tt;
              iter_lines := [ jpy "data: {'content':'a'}";
                              jpy "data: {'type':'token','content':'b'}" ];
              iter_failure := None |}
           (jpy "data: {'content':'a'}")
           [jpy "data: {'type':'token','content':'b'}"]
           [(py "content", JString (py "a"))]);
    try reflexivity; discriminate.
Defined.

Lemma astream_lines_pass_over_witness :
  astream_lines Json.loads
    [jpy "{'type':'token','content':'a'}"; py "[DONE]";
     jpy "{'type':'token','content':'b'}"] None =
  astream_lines Json.loads
    [jpy "{'type':'token','content':'a'}"; jpy "{'type':'token','content':'b'}"] None.
Proof.
  apply (astream_lines_pass_over Json.loads [jpy "{'type':'token','content':'a'}"]
           [jpy "{'type':'token','content':'b'}"] (py "[DONE]") None).
  left. reflexivity.
Defined.

Lemma retrieve_info_failure_witness :
  outcome (retrieve_info refused_get fresh_client) =
  Raise (Exn AgentClientError (py "Error connecting to agent service: Connection refused")).
Proof.
  exact (f_equal outcome
           (retrieve_info_failure refused_get fresh_client connect_error
              (or_introl eq_refl))).
Defined.

Lemma retrieve_info_selects_witness :
  agent (self_after (retrieve_info (serving metadata_ab) (client_of metadata_ba (py "zz"))))
  = Some (py "a").
Proof.
  apply (retrieve_info_selects (serving metadata_ab) (client_of metadata_ba (py "zz"))
           {| raise_for_status := Return tt; validated_json := Return metadata_ab |}
           metadata_ab); reflexivity.
Defined.

Lemma retrieve_info_idempotent_witness :
  retrieve_info (serving metadata_ab)
    (self_after (retrieve_info (serving metadata_ab) fresh_client)) =
  retrieve_info (serving metadata_ab) fresh_client.
Proof.
  apply (retrieve_info_idempotent (serving metadata_ab) fresh_client). reflexivity.
Defined.

Lemma update_agent_verified_postcondition_witness :
  agent (self_after (update_agent (serving metadata_ab) fresh_client (py "b") true)) =
  Some (py "b").
Proof.
  apply (update_agent_verified_postcondition (serving metadata_ab) fresh_client (py "b")).
  reflexivity.
Defined.

Lemma update_agent_refusal_keeps_fetch_witness :
  self_after (update_agent (serving metadata_ab) fresh_client (py "ghost") true) =
  {| base_url := py "http://localhost"; auth_secret := None; timeout := None;
     info := Some metadata_ab; agent := Some (py "a") |}.
Proof.
  exact (f_equal self_after
           (update_agent_refusal_keeps_fetch (serving metadata_ab) fresh_client
              {| raise_for_status := Return tt; validated_json := Return metadata_ab |}
              metadata_ab (py "ghost") eq_refl eq_refl eq_refl eq_refl eq_refl)).
Defined.

Lemma update_agent_fetch_failure_witness :
  update_agent refused_get fresh_client (py "a") true = retrieve_info refused_get fresh_client.
Proof.
  apply (update_agent_fetch_failure refused_get fresh_client (py "a") connect_error);
    [reflexivity | left; reflexivity].
Defined.

Lemma update_agent_uses_cached_metadata_witness :
  fst (update_agent_calls refused_get
         (self_after (update_agent refused_get (client_of metadata_ab (py "a"))
                        (py "b") true))
         [(py "a", true); (py "ghost", true); (py "zz", false); (py "b", true)]) = [].
Proof.
  apply (proj2 (update_agent_uses_cached_metadata refused_get)
           (client_of metadata_ab (py "a")) (py "b")
           [(py "a", true); (py "ghost", true); (py "zz", false); (py "b", true)]).
  reflexivity.
Defined.

Lemma init_postcondition_witness :
  agent (self_after (__init__ (serving metadata_ab) (Some (py "s3cret"))
                       (py "http://localhost") (Some (py "b")) None false)) =
    Some (py "b") /\
  exists md,
    info (self_after (__init__ (serving metadata_ab) (Some (py "s3cret"))
                        (py "http://localhost") (Some (py "b")) None false)) = Some md /\
    str_in (py "b") (map key (agents md)) = true.
Proof.
  exact (proj1 (proj2 (init_postcondition (serving metadata_ab) (Some (py "s3cret"))
                         (py "http://localhost") (Some (py "b")) None false eq_refl))
           (py "b") eq_refl eq_refl).
Defined.

Lemma no_agent_no_request_witness :
  stream Json.loads (streaming [jpy "{'type':'token','content':'a'}"])
    (self_after (update_agent refused_get (client_of metadata_ab (py "a")) [] false))
    (py "hello") None None true = raising no_agent_selected.
Proof.
  apply (no_agent_no_request Json.loads refused_post
           (streaming [jpy "{'type':'token','content':'a'}"])
           JValue accept_dict user_input_dump
           (self_after (update_agent refused_get (client_of metadata_ab (py "a")) [] false))
           (py "hello") None None true).
  reflexivity.
Defined.

Lemma invoke_transport_failure_witness :
  returned (invoke refused_post JValue accept_dict user_input_dump
              (client_of metadata_ab (py "a")) (py "hello") None None) =
  Raise (Exn AgentClientError (py "Error: [Errno 111] Connection refused")).
Proof.
  apply (proj1 (proj2 (proj2 (invoke_transport_failure refused_post JValue accept_dict
                                user_input_dump (client_of metadata_ab (py "a"))
                                (py "hello") None None eq_refl)))
           connect_error).
  left. reflexivity.
Defined.

Lemma invoke_ainvoke_agree_witness :
  returned (invoke (posting (JObject [(py "content", JString (py "hi"))]))
              JValue accept_dict user_input_dump
              (client_of metadata_ab (py "a")) (py "hello") None (Some [])) =
  returned (ainvoke (posting (JObject [(py "content", JString (py "hi"))]))
              JValue accept_dict user_input_dump
              (client_of metadata_ab (py "a")) (py "hello") None (Some [])).
Proof.
  apply (invoke_ainvoke_agree (posting (JObject [(py "content", JString (py "hi"))]))
           JValue accept_dict user_input_dump
           (client_of metadata_ab (py "a")) (py "hello") None (Some [])).
  reflexivity.
Defined.

Lemma acreate_feedback_outcome_witness :
  returned (acreate_feedback (posting JNull) feedback_dump fresh_client
              (py "run-1") (py "stars") (Dec false 5 0) (JObject [])) = Return tt.
Proof.
  apply (proj2 (proj2 (acreate_feedback_outcome (posting JNull) feedback_dump fresh_client
                         (py "run-1") (py "stars") (Dec false 5 0) (JObject [])))
           {| post_raise_for_status := Return tt; response_json := Return JNull |});
    reflexivity.
Defined.

Lemma history_and_feedback_ignore_agent_witness :
  get_history (posting (JObject [])) JValue accept_dict history_input_dump
    (client_of metadata_ab (py "a")) (py "thread-1") =
  get_history (posting (JObject [])) JValue accept_dict history_input_dump
    fresh_client (py "thread-1").
Proof.
  apply (history_and_feedback_ignore_agent (posting (JObject [])) JValue accept_dict
           history_input_dump feedback_dump
           (client_of metadata_ab (py "a")) fresh_client (py "thread-1")
           (py "run-1") (py "stars") (Dec false 5 0) (JObject []));
    reflexivity.
Defined.

Lemma get_history_outcome_witness :
  returned (get_history (posting (JArray [])) JValue accept_dict history_input_dump
              fresh_client (py "thread-1")) =
  Raise (Exn ValidationError (py "Input should be a valid dictionary")).
Proof.
  apply (proj2 (proj2 (get_history_outcome (posting (JArray [])) JValue accept_dict
                         history_input_dump fresh_client (py "thread-1")))
           {| post_raise_for_status := Return tt; response_json := Return (JArray []) |});
    reflexivity.
Defined.

(** *** C6 *)

Lemma done_ends_stream_witness :
  Forall2 (fun line ev => _parse_stream_line Json.loads line = Return (Some ev))
    [jpy "data: {'type':'token','content':'a'}"; jpy "data: {'type':'token','content':'b'}"]
    (yielded (stream_lines Json.loads
                [ jpy "data: {'type':'token','content':'a'}"; [];
                  jpy "data: {'type':'token','content':'b'}"; py "[DONE]";
                  jpy "data: {'type':'token','content':'late'}" ] (Some read_error))) /\
  ending (stream_lines Json.loads
            [ jpy "data: {'type':'token','content':'a'}"; [];
              jpy "data: {'type':'token','content':'b'}"; py "[DONE]";
              jpy "data: {'type':'token','content':'late'}" ] (Some read_error)) = None.
Proof.
  apply (proj1 (proj2 (proj2 (proj2 (proj2 (proj2 (done_ends_stream Json.loads))))))
           [ jpy "data: {'type':'token','content':'a'}"; [];
             jpy "data: {'type':'token','content':'b'}" ]
           [jpy "data: {'type':'token','content':'late'}"] (Some read_error)).
  reflexivity.
Defined.
